(** * Revenue summaries: cache-aside read path and aggregation

    A shallow embedding of [backend/app/services/cache.py] and
    [backend/app/services/reservations.py].

    A Python [str] is the list of its code points ([pystr]).  A code point is
    a number below 0x110000; the surrogates 0xD800 .. 0xDFFF are code points
    like the others, as they are in Python.  Python exceptions that derive
    from [Exception] are values of [exn]; a computation that may raise
    returns a [result].  The database pool, the SQL engine, the [decimal]
    module's text conversions and the Redis client are collaborators: their
    observable behaviour is an explicit argument of every function that
    reaches them.  What the functions print is not part of the model. *)

From Stdlib Require Import ZArith NArith QArith Qpower Ascii String.
From Stdlib Require Import DecimalString DecimalZ DecimalPos DecimalFacts.
From stdpp Require Import gmap list.

Set Warnings "-register-all".
Local Open Scope Z_scope.

(** ** Exceptions and fallible computations *)

Inductive exn : Type :=
  | ValueError (msg : string)
  | InvalidOperation
  | JSONDecodeError (msg : string)
  | PlainException (msg : string)
  | CollaboratorError (cls msg : string).

Inductive result (A : Type) : Type :=
  | Ok (a : A)
  | Raise (e : exn).

Arguments Ok {A} a.
Arguments Raise {A} e.

Definition bind {A B} (r : result A) (k : A -> result B) : result B :=
  match r with
  | Ok a => k a
  | Raise e => Raise e
  end.

Notation "'let*' x ':=' r 'in' k" := (bind r (fun x => k))
  (at level 10, x name, r at level 100, k at level 200).

(** [try: body except Exception as e: handler e]. *)
Definition try_except {A} (body : result A) (handler : exn -> result A) : result A :=
  match body with
  | Ok a => Ok a
  | Raise e => handler e
  end.

(** A collaborator call that either completes or raises. *)
Definition may_raise (fault : option exn) : result unit :=
  match fault with
  | None => Ok tt
  | Some e => Raise e
  end.

(** ** Strings *)

Definition pystr : Type := list N.

(** [ord(c)] of an ASCII character. *)
Definition ord (c : ascii) : N := N_of_ascii c.

(** The [str] that a literal of the source denotes. *)
Fixpoint py (s : string) : pystr :=
  match s with
  | EmptyString => []
  | String c s' => ord c :: py s'
  end.

(** [a == b] on strings. *)
Fixpoint str_eqb (a b : pystr) : bool :=
  match a, b with
  | [], [] => true
  | x :: a', y :: b' => (x =? y)%N && str_eqb a' b'
  | _, _ => false
  end.

(** ** Cache key (cache.py, line 18) *)

Definition cache_key (property_id tenant_id : pystr) : pystr :=
  py "revenue:" ++ tenant_id ++ py ":" ++ property_id.

(** ** Naive calendar instants ([datetime.datetime]) *)

Record datetime : Type := mk_datetime {
  year : Z; month : Z; day : Z;
  hour : Z; minute : Z; second : Z; microsecond : Z
}.

Definition MINYEAR : Z := 1.
Definition MAXYEAR : Z := 9999.

Definition is_leap (y : Z) : bool :=
  (y mod 4 =? 0) && (negb (y mod 100 =? 0) || (y mod 400 =? 0)).

Definition days_in_month (y m : Z) : Z :=
  if m =? 2 then (if is_leap y then 29 else 28)
  else if (m =? 4) || (m =? 6) || (m =? 9) || (m =? 11) then 30
  else 31.

(** [datetime(y, m, d)]: the constructor validates its fields and raises
    [ValueError] outside their ranges; the time of day defaults to midnight. *)
Definition datetime_new (y m d : Z) : result datetime :=
  if negb ((MINYEAR <=? y) && (y <=? MAXYEAR)) then
    Raise (ValueError "year is out of range")
  else if negb ((1 <=? m) && (m <=? 12)) then
    Raise (ValueError "month must be in 1..12")
  else if negb ((1 <=? d) && (d <=? days_in_month y m)) then
    Raise (ValueError "day is out of range for month")
  else Ok (mk_datetime y m d 0 0 0 0).

Definition dt_fields (t : datetime) : list Z :=
  [year t; month t; day t; hour t; minute t; second t; microsecond t].

Fixpoint lex_compare (a b : list Z) : comparison :=
  match a, b with
  | [], [] => Eq
  | [], _ :: _ => Lt
  | _ :: _, [] => Gt
  | x :: a', y :: b' =>
      match x ?= y with
      | Eq => lex_compare a' b'
      | c => c
      end
  end.

Definition dt_compare (a b : datetime) : comparison :=
  lex_compare (dt_fields a) (dt_fields b).

(** [a <= b] and [a < b] on timestamps. *)
Definition dt_leb (a b : datetime) : bool :=
  match dt_compare a b with Gt => false | _ => true end.
Definition dt_ltb (a b : datetime) : bool :=
  match dt_compare a b with Lt => true | _ => false end.

Definition dt_le (a b : datetime) : Prop := dt_compare a b <> Gt.
Definition dt_lt (a b : datetime) : Prop := dt_compare a b = Lt.

(** Lines 30-34 of reservations.py: the boundaries of the queried month. *)
Definition month_bounds (month year : Z) : result (datetime * datetime) :=
  let* start_date := datetime_new year month 1 in
  let* end_date := (if month <? 12 then datetime_new year (month + 1) 1
                    else datetime_new (year + 1) 1 1) in
  Ok (start_date, end_date).

(** ** Decimals

    A finite [decimal.Decimal]: a signed coefficient and an exponent, the
    value being [coefficient * 10 ^ exponent]. *)

Record Decimal : Type := mk_Decimal { coefficient : Z; exponent : Z }.

(** [Decimal('0')]. *)
Definition Decimal_zero : Decimal := mk_Decimal 0 0.

(** Truth value of a decimal: false exactly for zero. *)
Definition dec_truthy (d : Decimal) : bool := negb (coefficient d =? 0).

(** Exact addition: the operands are aligned on the smaller exponent. *)
Definition dec_add (a b : Decimal) : Decimal :=
  let e := Z.min (exponent a) (exponent b) in
  mk_Decimal (coefficient a * 10 ^ (exponent a - e)
              + coefficient b * 10 ^ (exponent b - e)) e.

(** The rational number a decimal denotes. *)
Definition dec_Q (d : Decimal) : Q :=
  inject_Z (coefficient d) * Qpower (inject_Z 10) (exponent d).

(** SQL [SUM]: [NULL] over no rows, the exact sum otherwise. *)
Definition sql_sum (l : list Decimal) : option Decimal :=
  match l with
  | [] => None
  | d :: l' => Some (fold_left dec_add l' d)
  end.

(** ** Python values

    The objects the cache path handles: what [json.loads] can return and what
    [json.dumps] accepts.  A dictionary keeps its items in insertion order; a
    float is kept as the literal that denotes it. *)

Inductive pyval : Type :=
  | PNone
  | PBool (b : bool)
  | PInt (z : Z)
  | PFloat (lexeme : pystr)
  | PStr (s : pystr)
  | PList (items : list pyval)
  | PDict (items : list (pystr * pyval)).

(** The dictionary literal built at lines 108-114, 117-123 and 142-148. *)
Definition summary_dict (property_id tenant_id total currency : pystr) (count : Z) : pyval :=
  PDict [(py "property_id", PStr property_id);
         (py "tenant_id", PStr tenant_id);
         (py "total", PStr total);
         (py "currency", PStr currency);
         (py "count", PInt count)].

(** ** The persistence collaborator *)

(** Modelled from the spec: the schema of the two tables is not part of the
    sources.  The columns are those the statements name; [check_in_date] is a
    timestamp without zone that denotes a UTC instant, [total_amount] is a
    fixed-point decimal, [timezone] is a zone name, and no column is null. *)
Record Reservation : Type := mk_Reservation {
  r_property_id : pystr;
  r_tenant_id : pystr;
  check_in_date : datetime;
  total_amount : Decimal
}.

Record Property : Type := mk_Property {
  p_id : pystr;
  p_tenant_id : pystr;
  timezone : pystr
}.

Record Database : Type := mk_Database {
  reservations : list Reservation;
  properties : list Property
}.

(** What one request observes of [DatabasePool]: whether importing, building
    and initializing the pool raises, whether [session_factory] is set
    afterwards, whether entering [get_session()] raises, whether
    [session.execute] raises, and the tables the statement is evaluated on. *)
Record DbPool : Type := mk_DbPool {
  initialize_fault : option exn;
  session_factory : bool;
  get_session_fault : option exn;
  execute_fault : option exn;
  tables : Database
}.

(** What the SQL engine and the [decimal] module contribute.  Applied to a
    timestamp without zone, [AT TIME ZONE 'UTC'] gives the instant that the
    timestamp denotes in UTC ([at_time_zone_utc]); applied to an instant,
    [AT TIME ZONE zone] gives the wall-clock timestamp of that instant in the
    zone ([at_time_zone]).  [Decimal_str] is [str] on a decimal and
    [Decimal_of_str] is the constructor [Decimal] on a string, which raises
    on text it cannot read. *)
Record Platform : Type := mk_Platform {
  Instant : Type;
  at_time_zone_utc : datetime -> Instant;
  at_time_zone : pystr -> Instant -> datetime;
  Decimal_str : Decimal -> pystr;
  Decimal_of_str : pystr -> result Decimal
}.

(** [reservations r INNER JOIN properties p
     ON r.property_id = p.id AND r.tenant_id = p.tenant_id]. *)
Definition join_on (r : Reservation) (p : Property) : bool :=
  str_eqb (r_property_id r) (p_id p) && str_eqb (r_tenant_id r) (p_tenant_id p).

Definition joined (db : Database) : list (Reservation * Property) :=
  flat_map (fun r => map (pair r) (List.filter (join_on r) (properties db)))
           (reservations db).

(** [r.property_id = :property_id AND r.tenant_id = :tenant_id]. *)
Definition scoped_to (property_id tenant_id : pystr) (rp : Reservation * Property) : bool :=
  str_eqb (r_property_id (fst rp)) property_id
  && str_eqb (r_tenant_id (fst rp)) tenant_id.

(** [r.check_in_date AT TIME ZONE 'UTC' AT TIME ZONE p.timezone]. *)
Definition local_check_in (pf : Platform) (rp : Reservation * Property) : datetime :=
  at_time_zone pf (timezone (snd rp)) (at_time_zone_utc pf (check_in_date (fst rp))).

(** The [WHERE] clause of the monthly statement (lines 45-48). *)
Definition monthly_where (pf : Platform) (property_id tenant_id : pystr)
    (start_date end_date : datetime) (rp : Reservation * Property) : bool :=
  scoped_to property_id tenant_id rp
  && dt_leb start_date (local_check_in pf rp)
  && dt_ltb (local_check_in pf rp) end_date.

Record MonthlyRow : Type := mk_MonthlyRow { total : option Decimal }.

(** The monthly statement (lines 41-49); an aggregate without [GROUP BY]
    yields exactly one row, which [fetchone] returns. *)
Definition monthly_query (pf : Platform) (db : Database) (property_id tenant_id : pystr)
    (start_date end_date : datetime) : option MonthlyRow :=
  Some (mk_MonthlyRow
          (sql_sum (map (fun rp => total_amount (fst rp))
                        (List.filter (monthly_where pf property_id tenant_id start_date end_date)
                                     (joined db))))).

Record TotalRow : Type := mk_TotalRow {
  row_property_id : pystr;
  total_revenue : Decimal;
  reservation_count : Z
}.

(** The total statement (lines 89-98): every selected row has the requested
    [property_id], so [GROUP BY r.property_id] yields one group when a row is
    selected and none otherwise. *)
Definition total_query (db : Database) (property_id tenant_id : pystr) : option TotalRow :=
  match List.filter (scoped_to property_id tenant_id) (joined db) with
  | [] => None
  | rp :: rest =>
      Some (mk_TotalRow property_id
              (fold_left dec_add (map (fun x => total_amount (fst x)) rest) (total_amount (fst rp)))
              (Z.of_nat (length (rp :: rest))))
  end.

(** [Decimal(str(d))]. *)
Definition Decimal_of_Decimal_str (pf : Platform) (d : Decimal) : result Decimal :=
  Decimal_of_str pf (Decimal_str pf d).

(** ** reservations.py *)

Definition calculate_monthly_revenue (pf : Platform) (db_pool : DbPool)
    (property_id : pystr) (month year : Z) (tenant_id : pystr) : result Decimal :=
  try_except
    (let* _ := may_raise (initialize_fault db_pool) in
     if session_factory db_pool then
       let* _ := may_raise (get_session_fault db_pool) in
       let* bounds := month_bounds month year in
       let* _ := may_raise (execute_fault db_pool) in
       let row := monthly_query pf (tables db_pool) property_id tenant_id
                    (fst bounds) (snd bounds) in
       match row with
       | Some (mk_MonthlyRow (Some t)) =>
           if dec_truthy t then Decimal_of_Decimal_str pf t else Ok Decimal_zero
       | _ => Ok Decimal_zero
       end
     else Raise (PlainException "Database pool not available"))
    (fun e => Ok Decimal_zero).

Record MockEntry : Type := mk_MockEntry { mock_total : pystr; mock_count : Z }.

(** Lines 132-138. *)
Definition mock_data : gmap pystr MockEntry :=
  list_to_map
    [(py "prop-001", mk_MockEntry (py "1000.00") 3);
     (py "prop-002", mk_MockEntry (py "4975.50") 4);
     (py "prop-003", mk_MockEntry (py "6100.50") 2);
     (py "prop-004", mk_MockEntry (py "1776.50") 4);
     (py "prop-005", mk_MockEntry (py "3256.00") 3)].

(** [mock_data.get(property_id, {'total': '0.00', 'count': 0})]. *)
Definition mock_property_data (property_id : pystr) : MockEntry :=
  default (mk_MockEntry (py "0.00") 0) (mock_data !! property_id).

Definition calculate_total_revenue (pf : Platform) (db_pool : DbPool)
    (property_id tenant_id : pystr) : result pyval :=
  try_except
    (let* _ := may_raise (initialize_fault db_pool) in
     if session_factory db_pool then
       let* _ := may_raise (get_session_fault db_pool) in
       let* _ := may_raise (execute_fault db_pool) in
       let row := total_query (tables db_pool) property_id tenant_id in
       match row with
       | Some row =>
           let* total_revenue := Decimal_of_Decimal_str pf (total_revenue row) in
           Ok (summary_dict property_id tenant_id (Decimal_str pf total_revenue) (py "USD")
                 (reservation_count row))
       | None =>
           Ok (summary_dict property_id tenant_id (py "0.00") (py "USD") 0)
       end
     else Raise (PlainException "Database pool not available"))
    (fun e =>
       let mock_property_data := mock_property_data property_id in
       Ok (summary_dict property_id tenant_id (mock_total mock_property_data) (py "USD")
             (mock_count mock_property_data))).

(** ** JSON text ([json.dumps] and [json.loads] with their defaults)

    The encoder escapes every character outside the printable ASCII range
    ([ensure_ascii]): a code point below 0x10000 as one [\uXXXX] escape, a
    code point from 0x10000 on as the escapes of its two surrogates.  It
    separates items with a comma and a space, keys from values with a colon
    and a space.  The decoder is the strict scanner; it joins the escape of a
    high surrogate and the escape of a low surrogate that follows it into
    one code point. *)

Module Json.

Local Open Scope N_scope.

Definition dquote : ascii := "034"%char.
Definition backslash : ascii := "092"%char.

Definition hex_digit (n : N) : N :=
  if n <? 10 then 48 + n else 87 + n.

Definition hex_value (c : N) : option N :=
  if (48 <=? c) && (c <=? 57) then Some (c - 48)
  else if (97 <=? c) && (c <=? 102) then Some (c - 87)
  else if (65 <=? c) && (c <=? 70) then Some (c - 55)
  else None.

(** [format(n, '04x')] for [n] below 0x10000. *)
Definition hex4 (n : N) : pystr :=
  [hex_digit (n / 4096); hex_digit (n / 256 mod 16);
   hex_digit (n / 16 mod 16); hex_digit (n mod 16)].

(** The replacement of one character by [encode_basestring_ascii]. *)
Definition escape_char (n : N) : pystr :=
  if n =? ord backslash then [ord backslash; ord backslash]
  else if n =? ord dquote then [ord backslash; ord dquote]
  else if n =? 8 then [ord backslash; ord "b"]
  else if n =? 12 then [ord backslash; ord "f"]
  else if n =? 10 then [ord backslash; ord "n"]
  else if n =? 13 then [ord backslash; ord "r"]
  else if n =? 9 then [ord backslash; ord "t"]
  else if (32 <=? n) && (n <=? 126) then [n]
  else if n <? 0x10000 then ord backslash :: ord "u" :: hex4 n
  else
    let v := n - 0x10000 in
    let s1 := N.lor 0xd800 (N.land (N.shiftr v 10) 0x3ff) in
    let s2 := N.lor 0xdc00 (N.land v 0x3ff) in
    (ord backslash :: ord "u" :: hex4 s1) ++ (ord backslash :: ord "u" :: hex4 s2).

Fixpoint escape (s : pystr) : pystr :=
  match s with
  | [] => []
  | c :: s' => escape_char c ++ escape s'
  end.

Definition encode_basestring_ascii (s : pystr) : pystr :=
  ord dquote :: escape s ++ [ord dquote].

Definition encode_int (z : Z) : pystr := py (NilZero.string_of_int (Z.to_int z)).

(** [sep.join(parts)]. *)
Fixpoint join (sep : pystr) (parts : list pystr) : pystr :=
  match parts with
  | [] => []
  | [x] => x
  | x :: rest => x ++ sep ++ join sep rest
  end.

Fixpoint dumps (v : pyval) : pystr :=
  match v with
  | PNone => py "null"
  | PBool true => py "true"
  | PBool false => py "false"
  | PInt z => encode_int z
  | PFloat lexeme => lexeme
  | PStr s => encode_basestring_ascii s
  | PList items => py "[" ++ join (py ", ") (map dumps items) ++ py "]"
  | PDict items =>
      py "{" ++ join (py ", ")
                  (map (fun kv => encode_basestring_ascii (fst kv) ++ py ": " ++ dumps (snd kv))
                       items) ++ py "}"
  end.

(** *** Decoding *)

Definition is_ws (c : N) : bool :=
  (c =? 32) || (c =? 9) || (c =? 10) || (c =? 13).

Fixpoint skip_ws (s : pystr) : pystr :=
  match s with
  | c :: s' => if is_ws c then skip_ws s' else s
  | [] => s
  end.

Definition is_digit (c : N) : bool := (48 <=? c) && (c <=? 57).

Fixpoint take_digits (s : pystr) : pystr * pystr :=
  match s with
  | c :: s' =>
      if is_digit c then (let r := take_digits s' in (c :: fst r, snd r))
      else ([], s)
  | [] => ([], s)
  end.

(** The character denoted by a simple escape. *)
Definition unescape_simple (c : N) : option N :=
  if c =? ord dquote then Some (ord dquote)
  else if c =? ord backslash then Some (ord backslash)
  else if c =? ord "/" then Some (ord "/")
  else if c =? ord "b" then Some 8
  else if c =? ord "f" then Some 12
  else if c =? ord "n" then Some 10
  else if c =? ord "r" then Some 13
  else if c =? ord "t" then Some 9
  else None.

Definition decode_uXXXX (h1 h2 h3 h4 : N) : option N :=
  match hex_value h1, hex_value h2, hex_value h3, hex_value h4 with
  | Some a, Some b, Some c, Some d => Some (((a * 16 + b) * 16 + c) * 16 + d)
  | _, _, _, _ => None
  end.

Definition is_high_surrogate (c : N) : bool := (0xd800 <=? c) && (c <=? 0xdbff).
Definition is_low_surrogate (c : N) : bool := (0xdc00 <=? c) && (c <=? 0xdfff).

(** The code point that a high and a low surrogate denote together. *)
Definition join_surrogates (uni uni2 : N) : N :=
  0x10000 + N.lor (N.shiftl (uni - 0xd800) 10) (uni2 - 0xdc00).

(** One more decoded character in front of what the rest of the scan gives. *)
Definition scanned (c : N) (r : result (pystr * pystr)) : result (pystr * pystr) :=
  match r with
  | Ok kr => Ok (c :: fst kr, snd kr)
  | Raise x => Raise x
  end.

(** [scanstring], entered after the opening quote: the decoded string and the
    input that follows the closing quote. *)
Fixpoint scanstring (s : pystr) : result (pystr * pystr) :=
  match s with
  | [] => Raise (JSONDecodeError "Unterminated string")
  | c :: rest =>
      if c =? ord dquote then Ok ([], rest)
      else if c =? ord backslash then
        match rest with
        | [] => Raise (JSONDecodeError "Unterminated string")
        | e :: rest1 =>
            if e =? ord "u" then
              match rest1 with
              | h1 :: h2 :: h3 :: h4 :: rest2 =>
                  match decode_uXXXX h1 h2 h3 h4 with
                  | Some uni =>
                      if is_high_surrogate uni then
                        match rest2 with
                        | b :: u :: rest3 =>
                            if (b =? ord backslash) && (u =? ord "u") then
                              match rest3 with
                              | g1 :: g2 :: g3 :: g4 :: rest4 =>
                                  match decode_uXXXX g1 g2 g3 g4 with
                                  | Some uni2 =>
                                      if is_low_surrogate uni2 then
                                        scanned (join_surrogates uni uni2) (scanstring rest4)
                                      else scanned uni (scanstring rest2)
                                  | None => Raise (JSONDecodeError "Invalid \uXXXX escape")
                                  end
                              | _ => Raise (JSONDecodeError "Invalid \uXXXX escape")
                              end
                            else scanned uni (scanstring rest2)
                        | _ => scanned uni (scanstring rest2)
                        end
                      else scanned uni (scanstring rest2)
                  | None => Raise (JSONDecodeError "Invalid \uXXXX escape")
                  end
              | _ => Raise (JSONDecodeError "Invalid \uXXXX escape")
              end
            else
              match unescape_simple e with
              | Some ch => scanned ch (scanstring rest1)
              | None => Raise (JSONDecodeError "Invalid \escape")
              end
        end
      else if c <? 32 then
        Raise (JSONDecodeError "Invalid control character")
      else scanned c (scanstring rest)
  end.

(** The integer part of a number: an optional minus sign, then a single zero
    or a digit run that does not start with zero. *)
Definition scan_integer (s : pystr) : option (pystr * pystr) :=
  let signed := match s with
                | c :: r => if c =? ord "-" then ([c], r) else ([], s)
                | [] => ([], s)
                end in
  match snd signed with
  | c :: r =>
      if c =? ord "0" then Some (fst signed ++ [c], r)
      else if is_digit c then
        (let ds := take_digits r in Some (fst signed ++ c :: fst ds, snd ds))
      else None
  | [] => None
  end.

(** The optional fraction: a point and at least one digit. *)
Definition scan_frac (s : pystr) : pystr * pystr :=
  match s with
  | c :: r =>
      if c =? ord "." then
        let ds := take_digits r in
        match fst ds with
        | [] => ([], s)
        | _ => (c :: fst ds, snd ds)
        end
      else ([], s)
  | [] => ([], s)
  end.

(** The optional exponent: [e] or [E], an optional sign, at least one digit. *)
Definition scan_exp (s : pystr) : pystr * pystr :=
  match s with
  | c :: r =>
      if (c =? ord "e") || (c =? ord "E") then
        let signed := match r with
                      | d :: r' =>
                          if (d =? ord "-") || (d =? ord "+") then ([d], r') else ([], r)
                      | [] => ([], r)
                      end in
        let ds := take_digits (snd signed) in
        match fst ds with
        | [] => ([], s)
        | _ => (c :: fst signed ++ fst ds, snd ds)
        end
      else ([], s)
  | [] => ([], s)
  end.

(** The text of an ASCII string, for the conversions of the standard
    library; an integer literal holds a sign and ASCII digits only. *)
Definition ascii_text (s : pystr) : string :=
  string_of_list_ascii (map ascii_of_N s).

(** [int(digits)] on the text of an integer literal. *)
Definition int_of_literal (i : pystr) : option Z :=
  option_map Z.of_int (NilZero.int_of_string (ascii_text i)).

Definition parse_number (s : pystr) : option (pyval * pystr) :=
  match scan_integer s with
  | None => None
  | Some (i, r) =>
      let f := scan_frac r in
      let e := scan_exp (snd f) in
      match fst f, fst e with
      | [], [] =>
          match int_of_literal i with
          | Some z => Some (PInt z, r)
          | None => None
          end
      | _, _ => Some (PFloat (i ++ fst f ++ fst e), snd e)
      end
  end.

Fixpoint strip_prefix (p s : pystr) : option pystr :=
  match p, s with
  | [], _ => Some s
  | a :: p', b :: s' => if a =? b then strip_prefix p' s' else None
  | _ :: _, [] => None
  end.

(** [dict(pairs)]: a repeated key keeps its first position and takes the
    last value. *)
Fixpoint dict_set (k : pystr) (v : pyval) (d : list (pystr * pyval)) : list (pystr * pyval) :=
  match d with
  | [] => [(k, v)]
  | (k', v') :: d' => if str_eqb k' k then (k, v) :: d' else (k', v') :: dict_set k v d'
  end.

Definition dict_of_pairs (pairs : list (pystr * pyval)) : list (pystr * pyval) :=
  fold_left (fun d kv => dict_set (fst kv) (snd kv) d) pairs [].

Definition with_value {A B} (f : A -> B) (r : result (A * pystr)) : result (B * pystr) :=
  match r with
  | Ok p => Ok (f (fst p), snd p)
  | Raise x => Raise x
  end.

(** The constants and numbers of [scan_once], tried in its order. *)
Definition parse_atom (s : pystr) : result (pyval * pystr) :=
  match strip_prefix (py "null") s with
  | Some r => Ok (PNone, r)
  | None =>
  match strip_prefix (py "true") s with
  | Some r => Ok (PBool true, r)
  | None =>
  match strip_prefix (py "false") s with
  | Some r => Ok (PBool false, r)
  | None =>
  match parse_number s with
  | Some vr => Ok vr
  | None =>
  match strip_prefix (py "NaN") s with
  | Some r => Ok (PFloat (py "NaN"), r)
  | None =>
  match strip_prefix (py "Infinity") s with
  | Some r => Ok (PFloat (py "Infinity"), r)
  | None =>
  match strip_prefix (py "-Infinity") s with
  | Some r => Ok (PFloat (py "-Infinity"), r)
  | None => Raise (JSONDecodeError "Expecting value")
  end end end end end end end.

(** [scan_once] with the object and array scanners.  The fuel bounds the
    number of values scanned, nested or in sequence; [loads] supplies more
    than twice the length of the text, which is never used up. *)
Fixpoint parse_value (fuel : nat) (s : pystr) {struct fuel} : result (pyval * pystr) :=
  match fuel with
  | O => Raise (JSONDecodeError "nesting too deep")
  | S fuel' =>
      match s with
      | [] => Raise (JSONDecodeError "Expecting value")
      | c :: rest =>
          if c =? ord dquote then with_value PStr (scanstring rest)
          else if c =? ord "{" then
            match skip_ws rest with
            | c1 :: rest1 =>
                if c1 =? ord "}" then Ok (PDict [], rest1)
                else if c1 =? ord dquote then
                  with_value (fun pairs => PDict (dict_of_pairs pairs))
                             (parse_members fuel' rest1)
                else Raise (JSONDecodeError "Expecting property name enclosed in double quotes")
            | [] =>
                Raise (JSONDecodeError "Expecting property name enclosed in double quotes")
            end
          else if c =? ord "[" then
            match skip_ws rest with
            | c1 :: rest1 =>
                if c1 =? ord "]" then Ok (PList [], rest1)
                else with_value PList (parse_elements fuel' (c1 :: rest1))
            | [] => Raise (JSONDecodeError "Expecting value")
            end
          else parse_atom s
      end
  end
with parse_members (fuel : nat) (s : pystr) {struct fuel}
    : result (list (pystr * pyval) * pystr) :=
  match fuel with
  | O => Raise (JSONDecodeError "nesting too deep")
  | S fuel' =>
      match scanstring s with
      | Raise x => Raise x
      | Ok kr =>
          match skip_ws (snd kr) with
          | c1 :: r1 =>
              if c1 =? ord ":" then
                match parse_value fuel' (skip_ws r1) with
                | Raise x => Raise x
                | Ok vr =>
                    match skip_ws (snd vr) with
                    | c2 :: r2 =>
                        if c2 =? ord "}" then Ok ([(fst kr, fst vr)], r2)
                        else if c2 =? ord "," then
                          match skip_ws r2 with
                          | c3 :: r3 =>
                              if c3 =? ord dquote then
                                with_value (cons (fst kr, fst vr)) (parse_members fuel' r3)
                              else Raise (JSONDecodeError
                                     "Expecting property name enclosed in double quotes")
                          | [] =>
                              Raise (JSONDecodeError
                                "Expecting property name enclosed in double quotes")
                          end
                        else Raise (JSONDecodeError "Expecting ',' delimiter")
                    | [] => Raise (JSONDecodeError "Expecting ',' delimiter")
                    end
                end
              else Raise (JSONDecodeError "Expecting ':' delimiter")
          | [] => Raise (JSONDecodeError "Expecting ':' delimiter")
          end
      end
  end
with parse_elements (fuel : nat) (s : pystr) {struct fuel} : result (list pyval * pystr) :=
  match fuel with
  | O => Raise (JSONDecodeError "nesting too deep")
  | S fuel' =>
      match parse_value fuel' s with
      | Raise x => Raise x
      | Ok vr =>
          match skip_ws (snd vr) with
          | c :: r =>
              if c =? ord "]" then Ok ([fst vr], r)
              else if c =? ord "," then
                with_value (cons (fst vr)) (parse_elements fuel' (skip_ws r))
              else Raise (JSONDecodeError "Expecting ',' delimiter")
          | [] => Raise (JSONDecodeError "Expecting ',' delimiter")
          end
      end
  end.

(** [s.startswith('\ufeff')]. *)
Definition starts_with_bom (s : pystr) : bool :=
  match s with
  | c :: _ => c =? 0xfeff
  | [] => false
  end.

(** [json.loads] on a [str]: a leading byte order mark is refused, then one
    value is scanned between optional whitespace. *)
Definition loads (s : pystr) : result pyval :=
  if starts_with_bom s then
    Raise (JSONDecodeError "Unexpected UTF-8 BOM (decode using utf-8-sig)")
  else
    match parse_value (S (2 * length s)%nat) (skip_ws s) with
    | Raise x => Raise x
    | Ok vr =>
        match skip_ws (snd vr) with
        | [] => Ok (fst vr)
        | _ :: _ => Raise (JSONDecodeError "Extra data")
        end
    end.

End Json.

(** ** The key-value cache collaborator

    The clock counts milliseconds.  An entry carries the instant at which it
    expires and is absent from that instant on.  A stored value is
    represented by the text that its bytes encode: the client stores the
    encoding of the text it is given, and [json.loads] decodes the bytes it
    is given before it scans them. *)

Record World : Type := mk_World {
  now : Z;
  redis : gmap pystr (pystr * Z);
  aggregations : nat
}.

(** What one request observes of the Redis client: whether [get] raises and
    whether [setex] raises. *)
Record CacheClient : Type := mk_CacheClient {
  get_fault : option exn;
  setex_fault : option exn
}.

(** The value stored under a key, if it has not expired. *)
Definition live_entry (w : World) (key : pystr) : option pystr :=
  match redis w !! key with
  | Some (value, expires_at) => if now w <? expires_at then Some value else None
  | None => None
  end.

Definition redis_get (client : CacheClient) (w : World) (key : pystr)
    : result (option pystr) :=
  let* _ := may_raise (get_fault client) in
  Ok (live_entry w key).

Definition redis_setex (client : CacheClient) (w : World) (key : pystr)
    (seconds : Z) (value : pystr) : result World :=
  let* _ := may_raise (setex_fault client) in
  Ok (mk_World (now w) (<[key := (value, now w + seconds * 1000)]> (redis w))
               (aggregations w)).

(** Time passing between two requests. *)
Definition elapse (ms : Z) (w : World) : World :=
  mk_World (now w + ms) (redis w) (aggregations w).

(** Truth value of what [get] returned: [None] and the empty value are false. *)
Definition truthy_bytes (cached : option pystr) : bool :=
  match cached with
  | Some (_ :: _) => true
  | _ => false
  end.

(** One invocation of the aggregator, counted in the world. *)
Definition count_aggregation (w : World) : World :=
  mk_World (now w) (redis w) (S (aggregations w)).

(** ** cache.py *)

Definition get_revenue_summary (pf : Platform) (redis_client : CacheClient) (db_pool : DbPool)
    (property_id tenant_id : pystr) (w : World) : result pyval * World :=
  let cache_key := cache_key property_id tenant_id in
  match redis_get redis_client w cache_key with
  | Raise e => (Raise e, w)
  | Ok cached =>
      if truthy_bytes cached then (Json.loads (default [] cached), w)
      else
        let w1 := count_aggregation w in
        match calculate_total_revenue pf db_pool property_id tenant_id with
        | Raise e => (Raise e, w1)
        | Ok result =>
            match redis_setex redis_client w1 cache_key 300 (Json.dumps result) with
            | Raise e => (Raise e, w1)
            | Ok w2 => (Ok result, w2)
            end
        end
  end.

(** ** Vocabulary of the statements *)

(** Every element is a code point: the list is a Python [str]. *)
Definition is_str (s : pystr) : bool := forallb (fun c => (c <? 0x110000)%N) s.

(** No high surrogate is directly followed by a low surrogate. *)
Fixpoint surrogate_pair_free (s : pystr) : bool :=
  match s with
  | [] => true
  | a :: tl =>
      match tl with
      | b :: _ => negb (Json.is_high_surrogate a && Json.is_low_surrogate b)
      | [] => true
      end && surrogate_pair_free tl
  end.

(** The strings that the JSON text represents exactly. *)
Definition json_exact (s : pystr) : Prop :=
  is_str s = true /\ surrogate_pair_free s = true.

(** Well-formed Unicode text: code points that are not surrogates. *)
Definition unicode_text (s : pystr) : bool :=
  forallb (fun c => (c <? 0x110000)%N && negb ((0xd800 <=? c)%N && (c <=? 0xdfff)%N)) s.

(** [str] on a decimal gives a string that the JSON text represents exactly
    (it is ASCII text). *)
Definition prints_exact_text (pf : Platform) : Prop :=
  forall d, json_exact (Decimal_str pf d).

(** The session is produced and the statement runs. *)
Definition db_available (db_pool : DbPool) : Prop :=
  initialize_fault db_pool = None /\ session_factory db_pool = true
  /\ get_session_fault db_pool = None /\ execute_fault db_pool = None.

(** The session cannot be produced or the statement raises. *)
Definition db_unavailable (db_pool : DbPool) : Prop :=
  initialize_fault db_pool <> None \/ session_factory db_pool = false
  \/ get_session_fault db_pool <> None \/ execute_fault db_pool <> None.

(** The placeholder summary of lines 140-148. *)
Definition placeholder_summary (property_id tenant_id : pystr) : pyval :=
  summary_dict property_id tenant_id (mock_total (mock_property_data property_id)) (py "USD")
    (mock_count (mock_property_data property_id)).

(** The month before [(month, year)]. *)
Definition previous_month (month year : Z) : Z * Z :=
  if month =? 1 then (12, year - 1) else (month - 1, year).

Definition Qsum (l : list Q) : Q := fold_right Qplus 0%Q l.

(** A reservation of the requested property and tenant. *)
Definition reservation_of (property_id tenant_id : pystr) (r : Reservation) : bool :=
  str_eqb (r_property_id r) property_id && str_eqb (r_tenant_id r) tenant_id.

(** The property row with the requested id and tenant. *)
Definition property_of (property_id tenant_id : pystr) (p : Property) : bool :=
  str_eqb (p_id p) property_id && str_eqb (p_tenant_id p) tenant_id.

(** The property of the tenant is stored as the one row [p]. *)
Definition stored_once (db : Database) (property_id tenant_id : pystr) (p : Property) : Prop :=
  List.filter (property_of property_id tenant_id) (properties db) = [p].

(** The monthly contract in the words of the specification: a reservation of
    the requested tenant and property is selected when its check-in instant,
    read as UTC and then reprojected into the zone of the property, lies in
    the half-open interval from [start_date] to [end_date]; the monthly total
    is the sum of the amounts of the selected reservations, taken over the
    reservations themselves. *)
Definition spec_local_check_in (pf : Platform) (zone : pystr) (r : Reservation) : datetime :=
  at_time_zone pf zone (at_time_zone_utc pf (check_in_date r)).

Definition spec_selected (pf : Platform) (property_id tenant_id zone : pystr)
    (start_date end_date : datetime) (r : Reservation) : Prop :=
  r_property_id r = property_id /\ r_tenant_id r = tenant_id
  /\ dt_le start_date (spec_local_check_in pf zone r)
  /\ dt_lt (spec_local_check_in pf zone r) end_date.

#[global] Instance spec_selected_dec (pf : Platform) (property_id tenant_id zone : pystr)
    (start_date end_date : datetime) (r : Reservation) :
  Decision (spec_selected pf property_id tenant_id zone start_date end_date r).
Proof. unfold spec_selected, dt_le, dt_lt. apply _. Defined.

Definition spec_monthly_total (pf : Platform) (db : Database) (property_id tenant_id zone : pystr)
    (start_date end_date : datetime) : Q :=
  Qsum (map (fun r => dec_Q (total_amount r))
            (filter (spec_selected pf property_id tenant_id zone start_date end_date)
                    (reservations db))).

(** The error of a scan that ran out of fuel. *)
Definition out_of_fuel {A} (r : result A) : Prop :=
  r = Raise (JSONDecodeError "nesting too deep").

(** Where a number may stop: before a character that is neither a digit nor
    the start of a fraction or an exponent. *)
Definition no_digit_head (rest : pystr) : Prop :=
  match rest with
  | c :: _ => Json.is_digit c = false
  | [] => True
  end.

Definition number_ends (rest : pystr) : Prop :=
  match rest with
  | c :: _ =>
      Json.is_digit c = false /\ c <> ord "." /\ c <> ord "e" /\ c <> ord "E"
  | [] => True
  end.

(** The first character of an integer literal. *)
Definition numeric_head (c : N) : Prop := Json.is_digit c = true \/ c = ord "-".

(** What may follow the escape of a high surrogate for the scanner to leave
    the surrogate alone: anything but the escape of a low surrogate. *)
Definition no_low_escape (tail : pystr) : Prop :=
  match tail with
  | b :: u :: rest =>
      if ((b =? ord Json.backslash) && (u =? ord "u"))%N then
        match rest with
        | g1 :: g2 :: g3 :: g4 :: _ =>
            exists uni2, Json.decode_uXXXX g1 g2 g3 g4 = Some uni2
                         /\ Json.is_low_surrogate uni2 = false
        | _ => False
        end
      else True
  | _ => True
  end.

(** The text [json.dumps] produces for a summary, one member at a time. *)
Definition member_text (key vtext rest : pystr) : pystr :=
  Json.escape key ++ ord Json.dquote :: ord ":" :: ord " " :: vtext ++ rest.

Definition next_member (rest : pystr) : pystr :=
  ord "," :: ord " " :: ord Json.dquote :: rest.

Definition summary_text (property_id tenant_id total currency : pystr) (count : Z) : pystr :=
  ord "{" :: ord Json.dquote ::
    member_text (py "property_id") (Json.encode_basestring_ascii property_id) (next_member
    (member_text (py "tenant_id") (Json.encode_basestring_ascii tenant_id) (next_member
    (member_text (py "total") (Json.encode_basestring_ascii total) (next_member
    (member_text (py "currency") (Json.encode_basestring_ascii currency) (next_member
    (member_text (py "count") (Json.encode_int count) [ord "}"])))))))).

(** ** Sample collaborators *)

(** A platform with three zones at a fixed distance from UTC, every other
    zone name standing for UTC, and whose decimal text is the coefficient, the
    letter E and the exponent. *)
Fixpoint split_at_E (s : pystr) : option (pystr * pystr) :=
  match s with
  | [] => None
  | c :: r =>
      if (c =? ord "E")%N then Some ([], r)
      else match split_at_E r with
           | Some ab => Some (c :: fst ab, snd ab)
           | None => None
           end
  end.

Definition sample_Decimal_str (d : Decimal) : pystr :=
  Json.encode_int (coefficient d) ++ ord "E" :: Json.encode_int (exponent d).

Definition sample_Decimal_of_str (s : pystr) : result Decimal :=
  match split_at_E s with
  | Some ab =>
      match Json.int_of_literal (fst ab), Json.int_of_literal (snd ab) with
      | Some c, Some e => Ok (mk_Decimal c e)
      | _, _ => Raise InvalidOperation
      end
  | None => Raise InvalidOperation
  end.

(** The day after and the day before, at the same time of day. *)
Definition next_day (t : datetime) : datetime :=
  if day t <? days_in_month (year t) (month t) then
    mk_datetime (year t) (month t) (day t + 1) (hour t) (minute t) (second t) (microsecond t)
  else if month t <? 12 then
    mk_datetime (year t) (month t + 1) 1 (hour t) (minute t) (second t) (microsecond t)
  else
    mk_datetime (year t + 1) 1 1 (hour t) (minute t) (second t) (microsecond t).

Definition previous_day (t : datetime) : datetime :=
  if 1 <? day t then
    mk_datetime (year t) (month t) (day t - 1) (hour t) (minute t) (second t) (microsecond t)
  else if 1 <? month t then
    mk_datetime (year t) (month t - 1) (days_in_month (year t) (month t - 1))
      (hour t) (minute t) (second t) (microsecond t)
  else
    mk_datetime (year t - 1) 12 31 (hour t) (minute t) (second t) (microsecond t).

(** The wall clock [h] hours away, for [h] between -24 and 24. *)
Definition shift_hours (h : Z) (t : datetime) : datetime :=
  let moved := hour t + h in
  if moved <? 0 then
    let d := previous_day t in
    mk_datetime (year d) (month d) (day d) (moved + 24) (minute t) (second t) (microsecond t)
  else if 24 <=? moved then
    let d := next_day t in
    mk_datetime (year d) (month d) (day d) (moved - 24) (minute t) (second t) (microsecond t)
  else
    mk_datetime (year t) (month t) (day t) moved (minute t) (second t) (microsecond t).

(** Hours ahead of UTC. *)
Definition sample_utc_offset (zone : pystr) : Z :=
  if str_eqb zone (py "Asia/Tokyo") then 9
  else if str_eqb zone (py "America/Phoenix") then -7
  else if str_eqb zone (py "Asia/Dubai") then 4
  else 0.

Definition sample_platform : Platform :=
  mk_Platform datetime (fun t => t) (fun zone t => shift_hours (sample_utc_offset zone) t)
    sample_Decimal_str sample_Decimal_of_str.

Definition sample_tables : Database :=
  mk_Database
    [mk_Reservation (py "prop-001") (py "tenant-a") (mk_datetime 2024 3 1 0 0 0 0)
       (mk_Decimal 25000 (-2));
     mk_Reservation (py "prop-001") (py "tenant-a") (mk_datetime 2024 3 15 10 30 0 0)
       (mk_Decimal 10050 (-2));
     mk_Reservation (py "prop-001") (py "tenant-a") (mk_datetime 2024 4 1 0 0 0 0)
       (mk_Decimal 9900 (-2));
     mk_Reservation (py "prop-001") (py "tenant-b") (mk_datetime 2024 3 2 0 0 0 0)
       (mk_Decimal 77700 (-2))]
    [mk_Property (py "prop-001") (py "tenant-a") (py "UTC");
     mk_Property (py "prop-001") (py "tenant-b") (py "UTC")].

Definition healthy_pool : DbPool := mk_DbPool None true None None sample_tables.

(** A property in Tokyo, nine hours ahead of UTC: of its four reservations
    the first checks in at the last instant before March 2024 on the local
    clock, the second at the first instant of March, the third at the last
    instant of March and the fourth at the first instant of April.  A second
    tenant has a property with the same id in Phoenix. *)
Definition tokyo_tables : Database :=
  mk_Database
    [mk_Reservation (py "prop-002") (py "tenant-a") (mk_datetime 2024 2 29 14 59 59 999999)
       (mk_Decimal 11100 (-2));
     mk_Reservation (py "prop-002") (py "tenant-a") (mk_datetime 2024 2 29 15 0 0 0)
       (mk_Decimal 25000 (-2));
     mk_Reservation (py "prop-002") (py "tenant-a") (mk_datetime 2024 3 31 14 59 59 999999)
       (mk_Decimal 10050 (-2));
     mk_Reservation (py "prop-002") (py "tenant-a") (mk_datetime 2024 3 31 15 0 0 0)
       (mk_Decimal 9900 (-2));
     mk_Reservation (py "prop-002") (py "tenant-b") (mk_datetime 2024 3 1 6 0 0 0)
       (mk_Decimal 77700 (-2))]
    [mk_Property (py "prop-002") (py "tenant-a") (py "Asia/Tokyo");
     mk_Property (py "prop-002") (py "tenant-b") (py "America/Phoenix")].

Definition tokyo_pool : DbPool := mk_DbPool None true None None tokyo_tables.

(** A reachable database that holds no rows. *)
Definition empty_pool : DbPool := mk_DbPool None true None None (mk_Database [] []).

(** A pool whose [session_factory] is unset after initialization. *)
Definition pool_down : DbPool := mk_DbPool None false None None (mk_Database [] []).

Definition working_cache : CacheClient := mk_CacheClient None None.

Definition connection_refused : exn :=
  CollaboratorError "ConnectionError" "Error connecting to localhost:6379".

Definition cache_down : CacheClient :=
  mk_CacheClient (Some connection_refused) (Some connection_refused).

Definition cache_read_only : CacheClient := mk_CacheClient None (Some connection_refused).

Definition fresh_world : World := mk_World 0 ∅ 0.

(** ** Vocabulary of the further properties *)

(** Whether an id contains the separator of the cache key. *)
Fixpoint has_colon (s : pystr) : bool :=
  match s with
  | [] => false
  | c :: s' => (c =? ord ":")%N || has_colon s'
  end.

(** The rows of the two tables that belong to one property of one tenant. *)
Definition scope_tables (property_id tenant_id : pystr) (db : Database) : Database :=
  mk_Database (List.filter (reservation_of property_id tenant_id) (reservations db))
              (List.filter (property_of property_id tenant_id) (properties db)).

(** The fields of a timestamp are within the ranges that lexicographic
    comparison relies on. *)
Definition datetime_wf (t : datetime) : Prop :=
  1 <= month t <= 12 /\ 1 <= day t /\ 0 <= hour t /\ 0 <= minute t
  /\ 0 <= second t /\ 0 <= microsecond t.


(** A reservation of the tenant and property whose check-in, on the clock of
    [zone], lies in month [m] of year [y]. *)
Definition in_calendar_month (pf : Platform) (property_id tenant_id zone : pystr) (m y : Z)
    (r : Reservation) : bool :=
  reservation_of property_id tenant_id r
  && (year (spec_local_check_in pf zone r) =? y)
  && (month (spec_local_check_in pf zone r) =? m).

(** A tenant and a property whose ids regroup around a colon. *)
Definition colon_ids_pool : DbPool :=
  mk_DbPool None true None None
    (mk_Database
       [mk_Reservation (py "b:c") (py "a") (mk_datetime 2024 3 1 0 0 0 0) (mk_Decimal 12345 (-2))]
       [mk_Property (py "b:c") (py "a") (py "UTC")]).

(** The sample tables without the rows of the second tenant. *)
Definition tenant_a_tables : Database :=
  mk_Database
    [mk_Reservation (py "prop-001") (py "tenant-a") (mk_datetime 2024 3 1 0 0 0 0)
       (mk_Decimal 25000 (-2));
     mk_Reservation (py "prop-001") (py "tenant-a") (mk_datetime 2024 3 15 10 30 0 0)
       (mk_Decimal 10050 (-2));
     mk_Reservation (py "prop-001") (py "tenant-a") (mk_datetime 2024 4 1 0 0 0 0)
       (mk_Decimal 9900 (-2))]
    [mk_Property (py "prop-001") (py "tenant-a") (py "UTC")].

(** Ids outside the Latin-1 range: two ideographs, and a code point beyond
    the sixteen-bit range. *)
Definition nihon : pystr := [0x65e5; 0x672c]%N.
Definition grinning : pystr := [0x1f600]%N.


(** * Properties *)

Ltac Zify.zify_post_hook ::= Z.to_euclidean_division_equations.

(** ** Strings *)

Lemma str_eqb_eq (a b : pystr) : str_eqb a b = true <-> a = b.
Proof.
  revert b. induction a as [|x a IH]; intros [|y b]; simpl; split; intros H;
    try reflexivity; try discriminate.
  - apply andb_true_iff in H as [Hx Ha]. apply N.eqb_eq in Hx. apply IH in Ha.
    now subst.
  - injection H as -> ->. rewrite N.eqb_refl. now apply IH.
Qed.

Lemma str_eqb_refl (a : pystr) : str_eqb a a = true.
Proof. now apply str_eqb_eq. Qed.

Lemma str_eqb_sym (a b : pystr) : str_eqb a b = str_eqb b a.
Proof.
  destruct (str_eqb a b) eqn:Hab, (str_eqb b a) eqn:Hba; try reflexivity.
  - apply str_eqb_eq in Hab. subst. now rewrite str_eqb_refl in Hba.
  - apply str_eqb_eq in Hba. subst. now rewrite str_eqb_refl in Hab.
Qed.

Lemma py_append (s t : string) : py (s ++ t)%string = py s ++ py t.
Proof. induction s as [|c s IH]; simpl; [reflexivity | now rewrite IH]. Qed.

Lemma ascii_text_py (s : string) : Json.ascii_text (py s) = s.
Proof.
  unfold Json.ascii_text. induction s as [|c s IH]; [reflexivity|].
  cbn [py map string_of_list_ascii]. unfold ord at 1. now rewrite ascii_N_embedding, IH.
Qed.

(** ** The cache key *)

(** C1. The key is the namespace [revenue], the tenant id and the property
    id, in that order and separated by colons; for one property id, two
    different tenant ids give two different keys. *)
Theorem cache_key_is_tenant_scoped (P T1 T2 : pystr) :
  cache_key P T1 = py "revenue:" ++ T1 ++ py ":" ++ P
  /\ (T1 <> T2 -> cache_key P T1 <> cache_key P T2).
Proof.
  split; [reflexivity|].
  intros Hne Heq. apply Hne. unfold cache_key in Heq.
  apply app_inv_head in Heq. rewrite !(app_assoc _ (py ":")) in Heq.
  apply app_inv_tail in Heq. now apply app_inv_tail in Heq.
Qed.

(** Ids that contain a colon: two requests of different tenants for different
    properties can share a key. *)
Remark cache_key_colon_ambiguity : cache_key (py "c") (py "a:b") = cache_key (py "b:c") (py "a").
Proof. reflexivity. Qed.

(** ** Month boundaries *)

Lemma datetime_new_first_day (y m : Z) :
  1 <= y <= 9999 -> 1 <= m <= 12 ->
  datetime_new y m 1 = Ok (mk_datetime y m 1 0 0 0 0).
Proof.
  intros Hy Hm. unfold datetime_new, MINYEAR, MAXYEAR.
  assert (1 <= days_in_month y m).
  { unfold days_in_month.
    destruct (m =? 2); [destruct (is_leap y); lia|].
    destruct ((m =? 4) || (m =? 6) || (m =? 9) || (m =? 11)); lia. }
  replace ((1 <=? y) && (y <=? 9999)) with true by (symmetry; apply andb_true_iff; lia).
  replace ((1 <=? m) && (m <=? 12)) with true by (symmetry; apply andb_true_iff; lia).
  replace ((1 <=? 1) && (1 <=? days_in_month y m)) with true
    by (symmetry; apply andb_true_iff; lia).
  reflexivity.
Qed.

Lemma month_bounds_value (m y : Z) :
  1 <= m <= 12 -> 1 <= y <= 9999 -> ~ (m = 12 /\ y = 9999) ->
  month_bounds m y
  = Ok (mk_datetime y m 1 0 0 0 0,
        if m <? 12 then mk_datetime y (m + 1) 1 0 0 0 0
        else mk_datetime (y + 1) 1 1 0 0 0 0).
Proof.
  intros Hm Hy Hlast. unfold month_bounds.
  rewrite datetime_new_first_day by lia. simpl.
  destruct (m <? 12) eqn:Hlt.
  - apply Z.ltb_lt in Hlt. now rewrite datetime_new_first_day by lia.
  - apply Z.ltb_ge in Hlt. now rewrite datetime_new_first_day by lia.
Qed.

(** C4, as the code has it. For a month in 1..12 and a year in 1..9999, the
    pair December 9999 excepted, the boundaries are midnight of the first day
    of the month and midnight of the first day of the following month, the
    year moving forward after December.  For December 9999 the following
    month is outside the range of [datetime] and no boundaries are produced. *)
Theorem month_bounds_in_range (m y : Z) :
  1 <= m <= 12 -> 1 <= y <= 9999 ->
  (~ (m = 12 /\ y = 9999) ->
   month_bounds m y
   = Ok (mk_datetime y m 1 0 0 0 0,
         if m <? 12 then mk_datetime y (m + 1) 1 0 0 0 0
         else mk_datetime (y + 1) 1 1 0 0 0 0))
  /\ (m = 12 -> y = 9999 ->
      month_bounds m y = Raise (ValueError "year is out of range")).
Proof.
  intros Hm Hy. split.
  - now apply month_bounds_value.
  - intros -> ->. reflexivity.
Qed.

Lemma month_bounds_in_range_witness :
  (~ (12 = 12 /\ 2024 = 9999) ->
   month_bounds 12 2024
   = Ok (mk_datetime 2024 12 1 0 0 0 0,
         if 12 <? 12 then mk_datetime 2024 (12 + 1) 1 0 0 0 0
         else mk_datetime (2024 + 1) 1 1 0 0 0 0))
  /\ (12 = 12 -> 2024 = 9999 ->
      month_bounds 12 2024 = Raise (ValueError "year is out of range")).
Proof. apply (month_bounds_in_range 12 2024); lia. Defined.

(** C4, counterexample. December 9999 has a first moment, but the first moment
    of the following month is outside the range of [datetime]: no boundary
    pair is produced, and the monthly revenue falls back to zero. *)
Lemma month_bounds_december_9999 :
  datetime_new 9999 12 1 = Ok (mk_datetime 9999 12 1 0 0 0 0)
  /\ month_bounds 12 9999 = Raise (ValueError "year is out of range")
  /\ calculate_monthly_revenue sample_platform healthy_pool (py "prop-001") 12 9999 (py "tenant-a")
     = Ok Decimal_zero.
Proof. repeat split; reflexivity. Qed.

(** ** The aggregator under faults *)

Ltac unfold_service :=
  unfold calculate_total_revenue, calculate_monthly_revenue,
    try_except, bind, may_raise.

Lemma db_available_not_unavailable (db_pool : DbPool) :
  db_available db_pool -> ~ db_unavailable db_pool.
Proof.
  intros (Hi & Hf & Hs & He) [H | [H | [H | H]]]; congruence.
Qed.

Lemma total_revenue_unavailable (pf : Platform) (db_pool : DbPool)
    (property_id tenant_id : pystr) :
  db_unavailable db_pool ->
  calculate_total_revenue pf db_pool property_id tenant_id
  = Ok (placeholder_summary property_id tenant_id).
Proof.
  intros Hdown. unfold_service.
  destruct (initialize_fault db_pool) eqn:Hi; [reflexivity|].
  destruct (session_factory db_pool) eqn:Hf; [|reflexivity].
  destruct (get_session_fault db_pool) eqn:Hs; [reflexivity|].
  destruct (execute_fault db_pool) eqn:He; [reflexivity|].
  exfalso. destruct Hdown as [H | [H | [H | H]]]; congruence.
Qed.

Lemma total_revenue_well_formed (pf : Platform) (db_pool : DbPool)
    (property_id tenant_id : pystr) :
  exists total count,
    calculate_total_revenue pf db_pool property_id tenant_id
    = Ok (summary_dict property_id tenant_id total (py "USD") count).
Proof.
  unfold_service.
  destruct (initialize_fault db_pool); [eexists _, _; reflexivity|].
  destruct (session_factory db_pool); [|eexists _, _; reflexivity].
  destruct (get_session_fault db_pool); [eexists _, _; reflexivity|].
  destruct (execute_fault db_pool); [eexists _, _; reflexivity|].
  destruct (total_query (tables db_pool) property_id tenant_id) as [row|];
    [|eexists _, _; reflexivity].
  destruct (Decimal_of_Decimal_str pf (total_revenue row));
    eexists _, _; reflexivity.
Qed.

Lemma monthly_revenue_unavailable (pf : Platform) (db_pool : DbPool)
    (property_id : pystr) (month year : Z) (tenant_id : pystr) :
  db_unavailable db_pool ->
  calculate_monthly_revenue pf db_pool property_id month year tenant_id = Ok Decimal_zero.
Proof.
  intros Hdown. unfold_service.
  destruct (initialize_fault db_pool) eqn:Hi; [reflexivity|].
  destruct (session_factory db_pool) eqn:Hf; [|reflexivity].
  destruct (get_session_fault db_pool) eqn:Hs; [reflexivity|].
  destruct (month_bounds month year); [|reflexivity].
  destruct (execute_fault db_pool) eqn:He; [reflexivity|].
  exfalso. destruct Hdown as [H | [H | [H | H]]]; congruence.
Qed.

Lemma monthly_revenue_total (pf : Platform) (db_pool : DbPool)
    (property_id : pystr) (month year : Z) (tenant_id : pystr) :
  exists d, calculate_monthly_revenue pf db_pool property_id month year tenant_id = Ok d.
Proof.
  unfold_service.
  destruct (initialize_fault db_pool); [eexists; reflexivity|].
  destruct (session_factory db_pool); [|eexists; reflexivity].
  destruct (get_session_fault db_pool); [eexists; reflexivity|].
  destruct (month_bounds month year) as [bounds|]; [|eexists; reflexivity].
  destruct (execute_fault db_pool); [eexists; reflexivity|].
  destruct (monthly_query pf (tables db_pool) property_id tenant_id (fst bounds) (snd bounds))
    as [[[t|]]|]; try (eexists; reflexivity).
  destruct (dec_truthy t); [|eexists; reflexivity].
  destruct (Decimal_of_Decimal_str pf t); eexists; reflexivity.
Qed.

Lemma monthly_revenue_empty_pool (pf : Platform)
    (property_id : pystr) (month year : Z) (tenant_id : pystr) :
  calculate_monthly_revenue pf empty_pool property_id month year tenant_id = Ok Decimal_zero.
Proof.
  unfold_service. simpl.
  destruct (month_bounds month year); reflexivity.
Qed.

(** C2, counterexample. With no session factory and empty tables the total
    revenue of [prop-001] is reported as 1000.00 over 3 reservations: the call
    succeeds with figures that no stored row supports, and the cache-aside
    path returns and stores them. *)
Lemma fault_returns_placeholder :
  db_unavailable pool_down
  /\ calculate_total_revenue sample_platform pool_down (py "prop-001") (py "tenant-a")
     = Ok (summary_dict (py "prop-001") (py "tenant-a") (py "1000.00") (py "USD") 3)
  /\ fst (get_revenue_summary sample_platform working_cache pool_down
            (py "prop-001") (py "tenant-a") fresh_world)
     = Ok (summary_dict (py "prop-001") (py "tenant-a") (py "1000.00") (py "USD") 3).
Proof.
  split; [right; left; reflexivity|].
  split; vm_compute; reflexivity.
Qed.

(** C2, as the code has it. The total revenue never fails: every call returns
    a summary with the five fields, the requested ids and the currency USD.
    When the session cannot be produced or the statement raises, its total and
    count are the placeholder figures for the property id, and the monthly
    revenue is the decimal zero; no error reaches the caller. *)
Theorem aggregator_never_fails (pf : Platform) (db_pool : DbPool)
    (property_id tenant_id : pystr) (month year : Z) :
  (exists total count,
     calculate_total_revenue pf db_pool property_id tenant_id
     = Ok (summary_dict property_id tenant_id total (py "USD") count))
  /\ (db_unavailable db_pool ->
      calculate_total_revenue pf db_pool property_id tenant_id
      = Ok (summary_dict property_id tenant_id
              (mock_total (mock_property_data property_id)) (py "USD")
              (mock_count (mock_property_data property_id)))
      /\ calculate_monthly_revenue pf db_pool property_id month year tenant_id
         = Ok Decimal_zero).
Proof.
  split; [apply total_revenue_well_formed|].
  intros Hdown. split.
  - now apply total_revenue_unavailable.
  - now apply monthly_revenue_unavailable.
Qed.

(** C9. In degraded mode the summary is the placeholder of the property id:
    for two tenants the total, the count and the currency coincide and only
    the echoed tenant id differs.  The placeholder comes from a table of five
    entries, with 0.00 and 0 for any other property id. *)
Theorem degraded_mode_ignores_tenant (pf : Platform) (pool1 pool2 : DbPool)
    (P T1 T2 : pystr) :
  db_unavailable pool1 -> db_unavailable pool2 ->
  (exists total count,
     calculate_total_revenue pf pool1 P T1 = Ok (summary_dict P T1 total (py "USD") count)
     /\ calculate_total_revenue pf pool2 P T2 = Ok (summary_dict P T2 total (py "USD") count)
     /\ (mock_data !! P = None -> total = py "0.00" /\ count = 0))
  /\ size mock_data = 5%nat.
Proof.
  intros H1 H2. split; [|reflexivity].
  exists (mock_total (mock_property_data P)), (mock_count (mock_property_data P)).
  rewrite !total_revenue_unavailable by assumption.
  split; [reflexivity|]. split; [reflexivity|].
  intros Hnone. unfold mock_property_data. rewrite Hnone. split; reflexivity.
Qed.

Lemma degraded_mode_ignores_tenant_witness :
  (exists total count,
     calculate_total_revenue sample_platform pool_down (py "prop-002") (py "tenant-a")
     = Ok (summary_dict (py "prop-002") (py "tenant-a") total (py "USD") count)
     /\ calculate_total_revenue sample_platform pool_down (py "prop-002") (py "tenant-b")
        = Ok (summary_dict (py "prop-002") (py "tenant-b") total (py "USD") count)
     /\ (mock_data !! (py "prop-002") = None -> total = py "0.00" /\ count = 0))
  /\ size mock_data = 5%nat.
Proof.
  apply (degraded_mode_ignores_tenant sample_platform pool_down pool_down);
    right; left; reflexivity.
Defined.

(** C10. The monthly revenue never raises; under any fault of the pool, the
    session or the statement it is the decimal zero, which is also what a
    reachable database without rows gives. *)
Theorem monthly_revenue_never_raises (pf : Platform) (db_pool : DbPool)
    (property_id : pystr) (month year : Z) (tenant_id : pystr) :
  (exists d, calculate_monthly_revenue pf db_pool property_id month year tenant_id = Ok d)
  /\ (db_unavailable db_pool ->
      calculate_monthly_revenue pf db_pool property_id month year tenant_id = Ok Decimal_zero
      /\ calculate_monthly_revenue pf db_pool property_id month year tenant_id
         = calculate_monthly_revenue pf empty_pool property_id month year tenant_id).
Proof.
  split; [apply monthly_revenue_total|].
  intros Hdown. rewrite monthly_revenue_empty_pool.
  split; now apply monthly_revenue_unavailable.
Qed.

(** ** The zero case *)

Lemma joined_reservation (db : Database) (rp : Reservation * Property) :
  In rp (joined db) -> In (fst rp) (reservations db).
Proof.
  unfold joined. rewrite in_flat_map. intros (r & Hr & Hrp).
  apply in_map_iff in Hrp as (p & <- & _). exact Hr.
Qed.

Lemma scoped_to_spec (property_id tenant_id : pystr) (rp : Reservation * Property) :
  scoped_to property_id tenant_id rp = true
  <-> r_property_id (fst rp) = property_id /\ r_tenant_id (fst rp) = tenant_id.
Proof.
  unfold scoped_to. rewrite andb_true_iff, !str_eqb_eq. reflexivity.
Qed.

Lemma total_query_no_rows (db : Database) (property_id tenant_id : pystr) :
  (forall r, In r (reservations db) ->
             ~ (r_property_id r = property_id /\ r_tenant_id r = tenant_id)) ->
  total_query db property_id tenant_id = None.
Proof.
  intros Hnone. unfold total_query.
  destruct (List.filter (scoped_to property_id tenant_id) (joined db)) as [|rp rest] eqn:Hf;
    [reflexivity|].
  assert (Hin : In rp (List.filter (scoped_to property_id tenant_id) (joined db)))
    by (rewrite Hf; left; reflexivity).
  apply filter_In in Hin as [Hj Hs].
  apply scoped_to_spec in Hs. apply joined_reservation in Hj.
  destruct (Hnone _ Hj Hs).
Qed.

(** C5. When the statement runs and no reservation row carries the requested
    property id and tenant id, the total revenue is the summary with total
    0.00, count 0 and currency USD, returned as a result. *)
Theorem no_reservations_zero_summary (pf : Platform) (db_pool : DbPool)
    (property_id tenant_id : pystr) :
  db_available db_pool ->
  (forall r, In r (reservations (tables db_pool)) ->
             ~ (r_property_id r = property_id /\ r_tenant_id r = tenant_id)) ->
  calculate_total_revenue pf db_pool property_id tenant_id
  = Ok (summary_dict property_id tenant_id (py "0.00") (py "USD") 0).
Proof.
  intros (Hi & Hf & Hs & He) Hnone. unfold_service.
  rewrite Hi, Hf, Hs, He, (total_query_no_rows _ _ _ Hnone). reflexivity.
Qed.

Lemma no_reservations_zero_summary_witness :
  calculate_total_revenue sample_platform healthy_pool (py "prop-001") (py "tenant-c")
  = Ok (summary_dict (py "prop-001") (py "tenant-c") (py "0.00") (py "USD") 0).
Proof.
  apply (no_reservations_zero_summary sample_platform healthy_pool (py "prop-001") (py "tenant-c")).
  - repeat split; reflexivity.
  - intros r Hr [_ Ht]. simpl in Hr.
    destruct Hr as [<- | [<- | [<- | [<- | []]]]]; discriminate Ht.
Defined.

(** ** Cache faults *)

(** C6, counterexample. When the cache refuses the connection, the request
    fails with that error although the database is healthy; when only the
    write is refused, the aggregator has run and its summary is dropped. *)
Lemma cache_fault_reaches_caller :
  get_revenue_summary sample_platform cache_down healthy_pool
    (py "prop-001") (py "tenant-a") fresh_world
  = (Raise connection_refused, fresh_world)
  /\ get_revenue_summary sample_platform cache_read_only healthy_pool
       (py "prop-001") (py "tenant-a") fresh_world
     = (Raise connection_refused, count_aggregation fresh_world).
Proof. split; vm_compute; reflexivity. Qed.

(** C6, as the code has it. A fault of the cache read is raised to the caller
    and the computation path does not run; after a miss, a fault of the cache
    write is raised to the caller once the aggregator has run, and the
    computed summary is not returned. *)
Theorem cache_faults_propagate (pf : Platform) (redis_client : CacheClient)
    (db_pool : DbPool) (property_id tenant_id : pystr) (w : World) (e : exn) :
  (get_fault redis_client = Some e ->
   get_revenue_summary pf redis_client db_pool property_id tenant_id w = (Raise e, w))
  /\ (get_fault redis_client = None ->
      truthy_bytes (live_entry w (cache_key property_id tenant_id)) = false ->
      setex_fault redis_client = Some e ->
      get_revenue_summary pf redis_client db_pool property_id tenant_id w
      = (Raise e, count_aggregation w)).
Proof.
  split.
  - intros Hget. unfold get_revenue_summary, redis_get, bind, may_raise.
    now rewrite Hget.
  - intros Hget Hmiss Hset.
    unfold get_revenue_summary, redis_get, redis_setex, bind, may_raise.
    rewrite Hget, Hmiss, Hset.
    destruct (total_revenue_well_formed pf db_pool property_id tenant_id)
      as (total & count & ->).
    reflexivity.
Qed.

(** ** The decoder's fuel *)

Section Fuel.

Local Open Scope nat_scope.

Lemma with_value_Ok {A B} (f : A -> B) (r : result (A * pystr)) (b : B) (rest : pystr) :
  Json.with_value f r = Ok (b, rest) -> exists a, r = Ok (a, rest) /\ b = f a.
Proof.
  destruct r as [[a rest']|x]; simpl; intros H; [|discriminate].
  injection H as <- <-. eauto.
Qed.

Lemma with_value_out_of_fuel {A B} (f : A -> B) (r : result (A * pystr)) :
  out_of_fuel (Json.with_value f r) -> out_of_fuel r.
Proof. unfold out_of_fuel. destruct r as [[a rest]|x]; simpl; congruence. Qed.

Lemma scanned_Ok (c : N) (r : result (pystr * pystr)) (k rest : pystr) :
  Json.scanned c r = Ok (k, rest) -> exists k', r = Ok (k', rest).
Proof.
  destruct r as [[k' rest']|x]; simpl; intros H; [|discriminate].
  injection H as _ <-. eauto.
Qed.

Lemma scanned_out_of_fuel (c : N) (r : result (pystr * pystr)) :
  out_of_fuel (Json.scanned c r) -> out_of_fuel r.
Proof. unfold out_of_fuel. destruct r as [[a rest]|x]; simpl; congruence. Qed.

Lemma skip_ws_length (s : pystr) : length (Json.skip_ws s) <= length s.
Proof.
  induction s as [|c s IH]; simpl; [lia|].
  destruct (Json.is_ws c); simpl; lia.
Qed.

Lemma take_digits_length (s : pystr) :
  length (snd (Json.take_digits s)) <= length s.
Proof.
  induction s as [|c s IH]; simpl; [lia|].
  destruct (Json.is_digit c); simpl; lia.
Qed.

Lemma scanstring_length (s k rest : pystr) :
  Json.scanstring s = Ok (k, rest) -> length rest < length s.
Proof.
  remember (length s) as n eqn:Hn.
  revert s k rest Hn. induction n as [n IH] using lt_wf_ind. intros s k rest Hn.
  assert (Hrec : forall c t k' r', length t < n ->
            Json.scanned c (Json.scanstring t) = Ok (k', r') -> length r' < length t).
  { intros c t k' r' Ht H. apply scanned_Ok in H as [k'' H].
    exact (IH (length t) Ht t k'' r' eq_refl H). }
  destruct s as [|c s]; [discriminate|]. simpl in Hn. cbn [Json.scanstring].
  destruct (c =? ord Json.dquote)%N.
  { intros [= <- <-]. simpl. lia. }
  destruct (c =? ord Json.backslash)%N.
  - destruct s as [|e s]; [discriminate|].
    destruct (e =? ord "u")%N.
    + destruct s as [|h1 [|h2 [|h3 [|h4 s]]]]; try discriminate.
      destruct (Json.decode_uXXXX h1 h2 h3 h4) as [uni|]; [|discriminate].
      simpl in Hn.
      assert (Halone : Json.scanned uni (Json.scanstring s) = Ok (k, rest) ->
                       length rest < n).
      { intros H. apply Hrec in H; lia. }
      destruct (Json.is_high_surrogate uni); [|exact Halone].
      destruct s as [|b [|u s']]; try exact Halone.
      destruct ((b =? ord Json.backslash)%N && (u =? ord "u")%N); [|exact Halone].
      destruct s' as [|g1 [|g2 [|g3 [|g4 s']]]]; try discriminate.
      destruct (Json.decode_uXXXX g1 g2 g3 g4) as [uni2|]; [|discriminate].
      destruct (Json.is_low_surrogate uni2); [|exact Halone].
      intros H. apply Hrec in H; simpl in *; lia.
    + destruct (Json.unescape_simple e); [|discriminate].
      intros H. apply Hrec in H; simpl in *; lia.
  - destruct (c <? 32)%N; [discriminate|].
    intros H. apply Hrec in H; simpl in *; lia.
Qed.

Lemma strip_prefix_length (p s r : pystr) :
  Json.strip_prefix p s = Some r -> length r + length p = length s.
Proof.
  revert s. induction p as [|a p IH]; intros [|b s]; simpl; try discriminate.
  - intros [= <-]. simpl. lia.
  - intros [= <-]. simpl. lia.
  - destruct (a =? b)%N; [|discriminate]. intros H. apply IH in H. lia.
Qed.

Lemma scan_integer_length (s i r : pystr) :
  Json.scan_integer s = Some (i, r) -> length r < length s.
Proof.
  unfold Json.scan_integer.
  set (signed := match s with
                 | c :: r0 => if (c =? ord "-")%N then ([c], r0) else ([], s)
                 | [] => ([], s)
                 end).
  assert (Hsigned : length (snd signed) <= length s).
  { subst signed. destruct s as [|c s]; [simpl; lia|].
    destruct (c =? ord "-")%N; simpl; lia. }
  destruct (snd signed) as [|c t]; [discriminate|]. simpl in Hsigned.
  destruct (c =? ord "0")%N.
  - intros [= _ <-]. lia.
  - destruct (Json.is_digit c); [|discriminate].
    intros [= _ <-]. pose proof (take_digits_length t). lia.
Qed.

Lemma scan_frac_length (s : pystr) :
  length (snd (Json.scan_frac s)) <= length s.
Proof.
  destruct s as [|c s]; [simpl; lia|]. unfold Json.scan_frac.
  destruct (c =? ord ".")%N; [|simpl; lia].
  pose proof (take_digits_length s).
  destruct (fst (Json.take_digits s)); simpl; lia.
Qed.

Lemma scan_exp_length (s : pystr) :
  length (snd (Json.scan_exp s)) <= length s.
Proof.
  destruct s as [|c s]; [simpl; lia|]. unfold Json.scan_exp.
  destruct ((c =? ord "e")%N || (c =? ord "E")%N); [|simpl; lia].
  set (signed := match s with
                 | d :: r' =>
                     if ((d =? ord "-")%N || (d =? ord "+")%N) then ([d], r') else ([], s)
                 | [] => ([], s)
                 end).
  assert (Hsigned : length (snd signed) <= length s).
  { subst signed. destruct s as [|d s]; [simpl; lia|].
    destruct ((d =? ord "-")%N || (d =? ord "+")%N); simpl; lia. }
  pose proof (take_digits_length (snd signed)).
  destruct (fst (Json.take_digits (snd signed))); simpl; lia.
Qed.

Lemma parse_number_length (s : pystr) (v : pyval) (rest : pystr) :
  Json.parse_number s = Some (v, rest) -> length rest < length s.
Proof.
  unfold Json.parse_number.
  destruct (Json.scan_integer s) as [[i r]|] eqn:Hi; [|discriminate].
  apply scan_integer_length in Hi.
  pose proof (scan_frac_length r). pose proof (scan_exp_length (snd (Json.scan_frac r))).
  destruct (fst (Json.scan_frac r)); destruct (fst (Json.scan_exp (snd (Json.scan_frac r))));
    try (intros [= _ <-]; lia).
  destruct (Json.int_of_literal i); [|discriminate]. intros [= _ <-]. lia.
Qed.

Lemma parse_atom_length (s : pystr) (v : pyval) (rest : pystr) :
  Json.parse_atom s = Ok (v, rest) -> length rest < length s.
Proof.
  unfold Json.parse_atom.
  repeat match goal with
         | |- context [Json.strip_prefix ?p s] =>
             let H := fresh "H" in
             destruct (Json.strip_prefix p s) eqn:H;
             [apply strip_prefix_length in H; simpl in H; intros [= _ <-]; lia|]
         | |- context [Json.parse_number s] =>
             let H := fresh "H" in
             destruct (Json.parse_number s) as [[? ?]|] eqn:H;
             [apply parse_number_length in H; intros [= _ <-]; lia|]
         end.
  discriminate.
Qed.

Lemma parse_atom_fuel (s : pystr) : ~ out_of_fuel (Json.parse_atom s).
Proof.
  unfold out_of_fuel, Json.parse_atom.
  repeat match goal with
         | |- context [Json.strip_prefix ?p s] =>
             destruct (Json.strip_prefix p s); [discriminate|]
         | |- context [Json.parse_number s] =>
             destruct (Json.parse_number s); [discriminate|]
         end.
  discriminate.
Qed.

Lemma parse_consumes (fuel : nat) :
  (forall s v rest, Json.parse_value fuel s = Ok (v, rest) ->
                    length rest < length s)
  /\ (forall s l rest, Json.parse_members fuel s = Ok (l, rest) ->
                       length rest < length s)
  /\ (forall s l rest, Json.parse_elements fuel s = Ok (l, rest) ->
                       length rest < length s).
Proof.
  induction fuel as [|fuel (IHv & IHm & IHe)];
    [repeat split; intros; discriminate|].
  repeat split.
  - intros s v rest. cbn [Json.parse_value].
    destruct s as [|c s]; [discriminate|].
    destruct (c =? ord Json.dquote)%N.
    { intros H. apply with_value_Ok in H as (k & H & _).
      apply scanstring_length in H. simpl. lia. }
    destruct (c =? ord "{")%N.
    { pose proof (skip_ws_length s) as Hws.
      destruct (Json.skip_ws s) as [|c1 s1]; [discriminate|]. simpl in Hws.
      destruct (c1 =? ord "}")%N; [intros [= _ <-]; simpl; lia|].
      destruct (c1 =? ord Json.dquote)%N; [|discriminate].
      intros H. apply with_value_Ok in H as (l & H & _).
      apply IHm in H. simpl. lia. }
    destruct (c =? ord "[")%N.
    { pose proof (skip_ws_length s) as Hws.
      destruct (Json.skip_ws s) as [|c1 s1]; [discriminate|]. simpl in Hws.
      destruct (c1 =? ord "]")%N; [intros [= _ <-]; simpl; lia|].
      intros H. apply with_value_Ok in H as (l & H & _).
      apply IHe in H. simpl in *. lia. }
    apply parse_atom_length.
  - intros s l rest. cbn [Json.parse_members].
    destruct (Json.scanstring s) as [[k r]|] eqn:Hk; [|discriminate].
    apply scanstring_length in Hk. cbn [fst snd].
    pose proof (skip_ws_length r) as Hws1.
    destruct (Json.skip_ws r) as [|c1 r1]; [discriminate|]. simpl in Hws1.
    destruct (c1 =? ord ":")%N; [|discriminate].
    pose proof (skip_ws_length r1) as Hws2.
    destruct (Json.parse_value fuel (Json.skip_ws r1)) as [[v r2]|] eqn:Hv; [|discriminate].
    apply IHv in Hv. cbn [fst snd].
    pose proof (skip_ws_length r2) as Hws3.
    destruct (Json.skip_ws r2) as [|c2 r3]; [discriminate|]. simpl in Hws3.
    destruct (c2 =? ord "}")%N; [intros [= _ <-]; lia|].
    destruct (c2 =? ord ",")%N; [|discriminate].
    pose proof (skip_ws_length r3) as Hws4.
    destruct (Json.skip_ws r3) as [|c3 r4]; [discriminate|]. simpl in Hws4.
    destruct (c3 =? ord Json.dquote)%N; [|discriminate].
    intros H. apply with_value_Ok in H as (l' & H & _).
    apply IHm in H. lia.
  - intros s l rest. cbn [Json.parse_elements].
    destruct (Json.parse_value fuel s) as [[v r]|] eqn:Hv; [|discriminate].
    apply IHv in Hv. cbn [fst snd].
    pose proof (skip_ws_length r) as Hws1.
    destruct (Json.skip_ws r) as [|c1 r1]; [discriminate|]. simpl in Hws1.
    destruct (c1 =? ord "]")%N; [intros [= _ <-]; lia|].
    destruct (c1 =? ord ",")%N; [|discriminate].
    pose proof (skip_ws_length r1) as Hws2.
    intros H. apply with_value_Ok in H as (l' & H & _).
    apply IHe in H. lia.
Qed.

Lemma scanstring_fuel (s : pystr) : ~ out_of_fuel (Json.scanstring s).
Proof.
  remember (length s) as n eqn:Hn.
  revert s Hn. induction n as [n IH] using lt_wf_ind. intros s Hn.
  assert (Hrec : forall c t, length t < n ->
            ~ out_of_fuel (Json.scanned c (Json.scanstring t))).
  { intros c t Ht H. apply scanned_out_of_fuel in H.
    exact (IH (length t) Ht t eq_refl H). }
  destruct s as [|c s]; [discriminate|]. simpl in Hn. cbn [Json.scanstring].
  destruct (c =? ord Json.dquote)%N; [discriminate|].
  destruct (c =? ord Json.backslash)%N.
  - destruct s as [|e s]; [discriminate|].
    destruct (e =? ord "u")%N.
    + destruct s as [|h1 [|h2 [|h3 [|h4 s]]]]; try discriminate.
      destruct (Json.decode_uXXXX h1 h2 h3 h4) as [uni|]; [|discriminate].
      simpl in Hn.
      assert (Halone : ~ out_of_fuel (Json.scanned uni (Json.scanstring s)))
        by (apply Hrec; lia).
      destruct (Json.is_high_surrogate uni); [|exact Halone].
      destruct s as [|b [|u s']]; try exact Halone.
      destruct ((b =? ord Json.backslash)%N && (u =? ord "u")%N); [|exact Halone].
      destruct s' as [|g1 [|g2 [|g3 [|g4 s']]]]; try discriminate.
      destruct (Json.decode_uXXXX g1 g2 g3 g4) as [uni2|]; [|discriminate].
      destruct (Json.is_low_surrogate uni2); [|exact Halone].
      apply Hrec. simpl in *. lia.
    + destruct (Json.unescape_simple e); [|discriminate].
      apply Hrec. simpl in *. lia.
  - destruct (c <? 32)%N; [discriminate|].
    apply Hrec. lia.
Qed.

Lemma out_of_fuel_Raise {A B} (e : exn) :
  out_of_fuel (@Raise A e) -> out_of_fuel (@Raise B e).
Proof. unfold out_of_fuel. intros [= ->]. reflexivity. Qed.

Lemma parse_fuel_suffices (fuel : nat) :
  (forall s, 2 * length s < fuel -> ~ out_of_fuel (Json.parse_value fuel s))
  /\ (forall s, 2 * length s < fuel -> ~ out_of_fuel (Json.parse_members fuel s))
  /\ (forall s, 2 * length s + 1 < fuel ->
                ~ out_of_fuel (Json.parse_elements fuel s)).
Proof.
  induction fuel as [|fuel (IHv & IHm & IHe)];
    [repeat split; intros; lia|].
  destruct (parse_consumes fuel) as (Cv & Cm & Ce).
  repeat split.
  - intros s Hlen. cbn [Json.parse_value].
    destruct s as [|c s]; [discriminate|]. simpl in Hlen.
    destruct (c =? ord Json.dquote)%N.
    { intros H. apply with_value_out_of_fuel in H. now apply scanstring_fuel in H. }
    destruct (c =? ord "{")%N.
    { pose proof (skip_ws_length s) as Hws.
      destruct (Json.skip_ws s) as [|c1 s1]; [discriminate|]. simpl in Hws.
      destruct (c1 =? ord "}")%N; [discriminate|].
      destruct (c1 =? ord Json.dquote)%N; [|discriminate].
      intros H. apply with_value_out_of_fuel in H. apply IHm in H; [exact H | lia]. }
    destruct (c =? ord "[")%N.
    { pose proof (skip_ws_length s) as Hws.
      destruct (Json.skip_ws s) as [|c1 s1]; [discriminate|]. simpl in Hws.
      destruct (c1 =? ord "]")%N; [discriminate|].
      intros H. apply with_value_out_of_fuel in H. apply IHe in H; [exact H | simpl; lia]. }
    apply parse_atom_fuel.
  - intros s Hlen. cbn [Json.parse_members].
    pose proof (scanstring_fuel s) as Hk.
    destruct (Json.scanstring s) as [[k r]|] eqn:Ek;
      [|intros H; apply Hk; revert H; apply out_of_fuel_Raise].
    apply scanstring_length in Ek. cbn [fst snd].
    pose proof (skip_ws_length r) as Hws1.
    destruct (Json.skip_ws r) as [|c1 r1]; [discriminate|]. simpl in Hws1.
    destruct (c1 =? ord ":")%N; [|discriminate].
    pose proof (skip_ws_length r1) as Hws2.
    pose proof (IHv (Json.skip_ws r1) ltac:(lia)) as Hv.
    destruct (Json.parse_value fuel (Json.skip_ws r1)) as [[v r2]|] eqn:Ev;
      [|intros H; apply Hv; revert H; apply out_of_fuel_Raise].
    apply Cv in Ev. cbn [fst snd].
    pose proof (skip_ws_length r2) as Hws3.
    destruct (Json.skip_ws r2) as [|c2 r3]; [discriminate|]. simpl in Hws3.
    destruct (c2 =? ord "}")%N; [discriminate|].
    destruct (c2 =? ord ",")%N; [|discriminate].
    pose proof (skip_ws_length r3) as Hws4.
    destruct (Json.skip_ws r3) as [|c3 r4]; [discriminate|]. simpl in Hws4.
    destruct (c3 =? ord Json.dquote)%N; [|discriminate].
    intros H. apply with_value_out_of_fuel in H. apply IHm in H; [exact H | lia].
  - intros s Hlen. cbn [Json.parse_elements].
    pose proof (IHv s ltac:(lia)) as Hv.
    destruct (Json.parse_value fuel s) as [[v r]|] eqn:Ev;
      [|intros H; apply Hv; revert H; apply out_of_fuel_Raise].
    apply Cv in Ev. cbn [fst snd].
    pose proof (skip_ws_length r) as Hws1.
    destruct (Json.skip_ws r) as [|c1 r1]; [discriminate|]. simpl in Hws1.
    destruct (c1 =? ord "]")%N; [discriminate|].
    destruct (c1 =? ord ",")%N; [|discriminate].
    pose proof (skip_ws_length r1) as Hws2.
    intros H. apply with_value_out_of_fuel in H. apply IHe in H; [exact H | lia].
Qed.

(** The decoder never stops for want of fuel. *)
Lemma loads_never_out_of_fuel (s : pystr) : ~ out_of_fuel (Json.loads s).
Proof.
  unfold Json.loads.
  destruct (Json.starts_with_bom s); [discriminate|].
  destruct (parse_fuel_suffices (S (2 * length s))) as (Hv & _ & _).
  pose proof (skip_ws_length s) as Hws.
  specialize (Hv (Json.skip_ws s) ltac:(lia)).
  destruct (Json.parse_value (S (2 * length s)) (Json.skip_ws s)) as [[v r]|e];
    [|intros H; apply Hv; revert H; apply out_of_fuel_Raise].
  cbn [fst snd]. destruct (Json.skip_ws r); discriminate.
Qed.

End Fuel.

(** ** Code points and their escapes *)

(** The code points of the characters that the scanners compare with. *)
Ltac ord_eval :=
  repeat match goal with
         | |- context [ord ?c] =>
             let v := eval vm_compute in (ord c) in change (ord c) with v
         | H : context [ord ?c] |- _ =>
             let v := eval vm_compute in (ord c) in change (ord c) with v in H
         end.

(** Comparisons between code points that arithmetic settles. *)
Ltac settle_tests :=
  repeat match goal with
         | |- context [(?a <=? ?b)%N] =>
             first [ replace (a <=? b)%N with true by (symmetry; apply N.leb_le; lia)
                   | replace (a <=? b)%N with false by (symmetry; apply N.leb_gt; lia) ]
         | |- context [(?a <? ?b)%N] =>
             first [ replace (a <? b)%N with true by (symmetry; apply N.ltb_lt; lia)
                   | replace (a <? b)%N with false by (symmetry; apply N.ltb_ge; lia) ]
         | |- context [(?a =? ?b)%N] =>
             first [ replace (a =? b)%N with true by (symmetry; apply N.eqb_eq; lia)
                   | replace (a =? b)%N with false by (symmetry; apply N.eqb_neq; lia) ]
         end.

Lemma hex_value_digit (d : N) : (d < 16)%N -> Json.hex_value (Json.hex_digit d) = Some d.
Proof.
  intros Hd. unfold Json.hex_digit, Json.hex_value.
  destruct (d <? 10)%N eqn:H10; [apply N.ltb_lt in H10 | apply N.ltb_ge in H10];
    settle_tests; cbn [andb]; f_equal; lia.
Qed.

Lemma decode_hex4 (n : N) :
  (n < 0x10000)%N ->
  Json.decode_uXXXX (Json.hex_digit (n / 4096)) (Json.hex_digit (n / 256 mod 16))
    (Json.hex_digit (n / 16 mod 16)) (Json.hex_digit (n mod 16)) = Some n.
Proof.
  intros Hn. unfold Json.decode_uXXXX.
  rewrite !hex_value_digit by lia. f_equal. lia.
Qed.

Lemma lor_disjoint (a b k : N) : (b < 2 ^ k)%N -> N.lor (a * 2 ^ k) b = (a * 2 ^ k + b)%N.
Proof.
  intros Hb.
  assert (Hland : N.land (a * 2 ^ k) b = 0%N).
  { apply N.bits_inj. intros i. rewrite N.land_spec, N.bits_0.
    destruct (N.lt_ge_cases i k) as [Hi | Hi].
    - now rewrite N.mul_pow2_bits_low.
    - replace (N.testbit b i) with false; [apply andb_false_r|].
      symmetry. destruct (N.eq_dec b 0%N) as [-> | Hb0]; [apply N.bits_0|].
      apply N.bits_above_log2. apply N.log2_lt_pow2; [lia|].
      eapply N.lt_le_trans; [exact Hb|]. apply N.pow_le_mono_r; lia. }
  rewrite <- N.lxor_lor by exact Hland. symmetry. now apply N.add_nocarry_lxor.
Qed.

Lemma high_surrogate_of (v : N) :
  N.lor 0xd800 (N.land (N.shiftr v 10) 0x3ff) = (0xd800 + (v / 1024) mod 1024)%N.
Proof.
  change 0x3ff%N with (N.ones 10). rewrite N.land_ones, N.shiftr_div_pow2.
  change (2 ^ 10)%N with 1024%N.
  change 0xd800%N with (54 * 2 ^ 10)%N. apply lor_disjoint.
  change (2 ^ 10)%N with 1024%N. lia.
Qed.

Lemma low_surrogate_of (v : N) :
  N.lor 0xdc00 (N.land v 0x3ff) = (0xdc00 + v mod 1024)%N.
Proof.
  change 0x3ff%N with (N.ones 10). rewrite N.land_ones.
  change (2 ^ 10)%N with 1024%N.
  change 0xdc00%N with (55 * 2 ^ 10)%N. apply lor_disjoint.
  change (2 ^ 10)%N with 1024%N. lia.
Qed.

Lemma join_surrogates_value (h l : N) :
  (l - 0xdc00 < 1024)%N ->
  Json.join_surrogates h l = (0x10000 + (h - 0xd800) * 1024 + (l - 0xdc00))%N.
Proof.
  intros Hl. unfold Json.join_surrogates.
  rewrite N.shiftl_mul_pow2, lor_disjoint by exact Hl.
  change (2 ^ 10)%N with 1024%N. lia.
Qed.

(** The two surrogates that the encoder writes for a code point beyond the
    sixteen-bit range, and the code point the decoder makes of them. *)
Lemma surrogates_of_code_point (c : N) :
  (0x10000 <= c < 0x110000)%N ->
  let v := (c - 0x10000)%N in
  let s1 := N.lor 0xd800 (N.land (N.shiftr v 10) 0x3ff) in
  let s2 := N.lor 0xdc00 (N.land v 0x3ff) in
  (s1 < 0x10000)%N /\ (s2 < 0x10000)%N
  /\ Json.is_high_surrogate s1 = true /\ Json.is_low_surrogate s1 = false
  /\ Json.is_low_surrogate s2 = true
  /\ Json.join_surrogates s1 s2 = c.
Proof.
  intros Hc v s1 s2. subst s1 s2.
  rewrite high_surrogate_of, low_surrogate_of.
  assert (Hv : (v < 0x100000)%N) by (subst v; lia).
  unfold Json.is_high_surrogate, Json.is_low_surrogate.
  repeat split; try lia; settle_tests; try reflexivity.
  rewrite join_surrogates_value by lia. subst v. lia.
Qed.

Lemma scanstring_u_alone (h1 h2 h3 h4 uni : N) (rest2 : pystr) :
  Json.decode_uXXXX h1 h2 h3 h4 = Some uni ->
  (Json.is_high_surrogate uni = true -> no_low_escape rest2) ->
  Json.scanstring (ord Json.backslash :: ord "u" :: h1 :: h2 :: h3 :: h4 :: rest2)
  = Json.scanned uni (Json.scanstring rest2).
Proof.
  intros Hd Hsafe.
  change (Json.scanstring (ord Json.backslash :: ord "u" :: h1 :: h2 :: h3 :: h4 :: rest2))
    with (match Json.decode_uXXXX h1 h2 h3 h4 with
          | Some uni =>
              if Json.is_high_surrogate uni then
                match rest2 with
                | b :: u :: rest3 =>
                    if ((b =? ord Json.backslash) && (u =? ord "u"))%N then
                      match rest3 with
                      | g1 :: g2 :: g3 :: g4 :: rest4 =>
                          match Json.decode_uXXXX g1 g2 g3 g4 with
                          | Some uni2 =>
                              if Json.is_low_surrogate uni2 then
                                Json.scanned (Json.join_surrogates uni uni2)
                                  (Json.scanstring rest4)
                              else Json.scanned uni (Json.scanstring rest2)
                          | None => Raise (JSONDecodeError "Invalid \uXXXX escape")
                          end
                      | _ => Raise (JSONDecodeError "Invalid \uXXXX escape")
                      end
                    else Json.scanned uni (Json.scanstring rest2)
                | _ => Json.scanned uni (Json.scanstring rest2)
                end
              else Json.scanned uni (Json.scanstring rest2)
          | None => Raise (JSONDecodeError "Invalid \uXXXX escape")
          end).
  rewrite Hd. destruct (Json.is_high_surrogate uni); [|reflexivity].
  specialize (Hsafe eq_refl). unfold no_low_escape in Hsafe.
  destruct rest2 as [|b [|u rest3]]; try reflexivity.
  destruct ((b =? ord Json.backslash) && (u =? ord "u"))%N; [|reflexivity].
  destruct rest3 as [|g1 [|g2 [|g3 [|g4 rest4]]]]; try contradiction.
  destruct Hsafe as (uni2 & -> & ->). reflexivity.
Qed.

Lemma scanstring_u_pair (h1 h2 h3 h4 g1 g2 g3 g4 uni uni2 : N) (rest4 : pystr) :
  Json.decode_uXXXX h1 h2 h3 h4 = Some uni -> Json.is_high_surrogate uni = true ->
  Json.decode_uXXXX g1 g2 g3 g4 = Some uni2 -> Json.is_low_surrogate uni2 = true ->
  Json.scanstring (ord Json.backslash :: ord "u" :: h1 :: h2 :: h3 :: h4
                     :: ord Json.backslash :: ord "u" :: g1 :: g2 :: g3 :: g4 :: rest4)
  = Json.scanned (Json.join_surrogates uni uni2) (Json.scanstring rest4).
Proof.
  intros Hd Hh Hd2 Hl.
  change (Json.scanstring
            (ord Json.backslash :: ord "u" :: h1 :: h2 :: h3 :: h4
               :: ord Json.backslash :: ord "u" :: g1 :: g2 :: g3 :: g4 :: rest4))
    with (match Json.decode_uXXXX h1 h2 h3 h4 with
          | Some uni =>
              if Json.is_high_surrogate uni then
                match Json.decode_uXXXX g1 g2 g3 g4 with
                | Some uni2 =>
                    if Json.is_low_surrogate uni2 then
                      Json.scanned (Json.join_surrogates uni uni2) (Json.scanstring rest4)
                    else Json.scanned uni
                           (Json.scanstring
                              (ord Json.backslash :: ord "u" :: g1 :: g2 :: g3 :: g4 :: rest4))
                | None => Raise (JSONDecodeError "Invalid \uXXXX escape")
                end
              else Json.scanned uni
                     (Json.scanstring
                        (ord Json.backslash :: ord "u" :: g1 :: g2 :: g3 :: g4 :: rest4))
          | None => Raise (JSONDecodeError "Invalid \uXXXX escape")
          end).
  now rewrite Hd, Hh, Hd2, Hl.
Qed.

Lemma scanstring_plain (c : N) (tail : pystr) :
  c <> ord Json.dquote -> c <> ord Json.backslash -> (32 <= c)%N ->
  Json.scanstring (c :: tail) = Json.scanned c (Json.scanstring tail).
Proof.
  intros Hq Hb Hc. cbn [Json.scanstring].
  apply N.eqb_neq in Hq, Hb. rewrite Hq, Hb.
  replace (c <? 32)%N with false by (symmetry; apply N.ltb_ge; lia). reflexivity.
Qed.

(** What the decoder makes of the escape of one character, when the
    character is not a high surrogate in front of the escape of a low one. *)
Lemma scanstring_escape_char (c : N) (tail : pystr) :
  (c < 0x110000)%N ->
  (Json.is_high_surrogate c = true -> no_low_escape tail) ->
  Json.scanstring (Json.escape_char c ++ tail) = Json.scanned c (Json.scanstring tail).
Proof.
  intros Hc Hsafe. unfold Json.escape_char.
  repeat match goal with
         | |- context [if (c =? ?k)%N then _ else _] =>
             destruct (N.eqb_spec c k) as [-> | ?]; [reflexivity|]
         end.
  destruct ((32 <=? c)%N && (c <=? 126)%N) eqn:Hprint.
  { apply andb_true_iff in Hprint as [Hlo _]. apply N.leb_le in Hlo.
    now apply scanstring_plain. }
  destruct (c <? 0x10000)%N eqn:Hbmp.
  - apply N.ltb_lt in Hbmp. unfold Json.hex4. cbn [app].
    apply scanstring_u_alone; [now apply decode_hex4 | exact Hsafe].
  - apply N.ltb_ge in Hbmp. cbv zeta.
    destruct (surrogates_of_code_point c ltac:(lia)) as (H1 & H2 & Hh & _ & Hl & Hj).
    cbv zeta in H1, H2, Hh, Hl, Hj. unfold Json.hex4. cbn [app].
    rewrite (scanstring_u_pair _ _ _ _ _ _ _ _ _ _ tail
               (decode_hex4 _ H1) Hh (decode_hex4 _ H2) Hl).
    now rewrite Hj.
Qed.

Lemma no_low_escape_other (c u : N) (tail : pystr) :
  c <> ord Json.backslash \/ u <> ord "u" -> no_low_escape (c :: u :: tail).
Proof.
  intros H. unfold no_low_escape.
  replace ((c =? ord Json.backslash) && (u =? ord "u"))%N with false; [exact I|].
  symmetry. apply andb_false_iff. rewrite !N.eqb_neq. exact H.
Qed.

(** The escape of a string that does not start with a low surrogate does not
    start with the escape of a low surrogate. *)
Lemma no_low_escape_escape (s rest : pystr) :
  is_str s = true ->
  match s with b :: _ => Json.is_low_surrogate b = false | [] => True end ->
  no_low_escape (Json.escape s ++ ord Json.dquote :: rest).
Proof.
  destruct s as [|c s]; intros Hstr Hhead.
  - destruct rest as [|u rest]; [exact I|]. apply no_low_escape_other. left. discriminate.
  - cbn [Json.escape]. rewrite <- app_assoc.
    set (tail := Json.escape s ++ ord Json.dquote :: rest).
    assert (Htail : exists u tail', tail = u :: tail').
    { subst tail. destruct (Json.escape s); simpl; eauto. }
    cbn [is_str forallb] in Hstr. apply andb_true_iff in Hstr as [Hc _].
    apply N.ltb_lt in Hc.
    unfold Json.escape_char.
    repeat match goal with
           | |- context [if (c =? ?k)%N then _ else _] =>
               destruct (N.eqb_spec c k) as [-> | ?];
               [apply no_low_escape_other; right; discriminate|]
           end.
    destruct ((32 <=? c)%N && (c <=? 126)%N).
    { destruct Htail as (u & tail' & ->). apply no_low_escape_other. now left. }
    destruct (c <? 0x10000)%N eqn:Hbmp.
    + apply N.ltb_lt in Hbmp. unfold Json.hex4. cbn [app]. unfold no_low_escape.
      rewrite !N.eqb_refl. cbn [andb]. exists c. split; [now apply decode_hex4 | exact Hhead].
    + apply N.ltb_ge in Hbmp. cbv zeta.
      destruct (surrogates_of_code_point c ltac:(lia)) as (H1 & _ & _ & Hl & _).
      cbv zeta in H1, Hl. unfold Json.hex4. cbn [app]. unfold no_low_escape.
      rewrite !N.eqb_refl. cbn [andb]. eexists. split; [now apply decode_hex4 | exact Hl].
Qed.

Lemma json_exact_tail (c : N) (s : pystr) : json_exact (c :: s) -> json_exact s.
Proof.
  intros [Hstr Hfree]. cbn [is_str forallb surrogate_pair_free] in *.
  apply andb_true_iff in Hstr as [_ Hstr]. apply andb_true_iff in Hfree as [_ Hfree].
  now split.
Qed.

(** The decoder reads back the escape of a string that has no high
    surrogate directly followed by a low surrogate. *)
Lemma scanstring_escape (s rest : pystr) :
  json_exact s ->
  Json.scanstring (Json.escape s ++ ord Json.dquote :: rest) = Ok (s, rest).
Proof.
  induction s as [|c s IH]; intros Hs.
  - reflexivity.
  - pose proof (json_exact_tail c s Hs) as Htail.
    destruct Hs as [Hstr Hfree].
    cbn [Json.escape]. rewrite <- app_assoc.
    rewrite scanstring_escape_char.
    + now rewrite (IH Htail).
    + cbn [is_str forallb] in Hstr. apply andb_true_iff in Hstr as [Hc _].
      now apply N.ltb_lt in Hc.
    + intros Hhigh. apply no_low_escape_escape; [apply Htail|].
      cbn [surrogate_pair_free] in Hfree. apply andb_true_iff in Hfree as [Hpair _].
      destruct s as [|b s]; [exact I|].
      rewrite Hhigh in Hpair. cbn [andb] in Hpair. now apply negb_true_iff in Hpair.
Qed.

(** ** Integer literals *)

Lemma take_digits_uint (u : Decimal.uint) (rest : pystr) :
  no_digit_head rest ->
  Json.take_digits (py (NilEmpty.string_of_uint u) ++ rest)
  = (py (NilEmpty.string_of_uint u), rest).
Proof.
  intros Hrest. induction u as [|u IH|u IH|u IH|u IH|u IH|u IH|u IH|u IH|u IH|u IH];
    cbn [NilEmpty.string_of_uint py app Json.take_digits];
    try (rewrite IH; reflexivity).
  destruct rest as [|c r]; [reflexivity|]. simpl in *. now rewrite Hrest.
Qed.

Lemma scan_frac_none (rest : pystr) :
  number_ends rest -> Json.scan_frac rest = ([], rest).
Proof.
  destruct rest as [|c r]; [reflexivity|]. intros (_ & Hdot & _).
  unfold Json.scan_frac. apply N.eqb_neq in Hdot. now rewrite Hdot.
Qed.

Lemma scan_exp_none (rest : pystr) :
  number_ends rest -> Json.scan_exp rest = ([], rest).
Proof.
  destruct rest as [|c r]; [reflexivity|]. intros (_ & _ & He & HE).
  unfold Json.scan_exp. apply N.eqb_neq in He, HE. now rewrite He, HE.
Qed.

Lemma number_ends_no_digit (rest : pystr) : number_ends rest -> no_digit_head rest.
Proof. destruct rest; [trivial|]. now intros (H & _). Qed.

Lemma to_uint_head (p : positive) :
  match Pos.to_uint p with
  | Decimal.Nil | Decimal.D0 _ => False
  | _ => True
  end.
Proof.
  pose proof (Unsigned.to_uint_nonnil p) as Hnil.
  pose proof (Unsigned.to_uint_nonzero p) as Hzero.
  pose proof (Unsigned.to_of (Pos.to_uint p)) as Hnorm.
  rewrite Unsigned.of_to in Hnorm. simpl in Hnorm.
  destruct (Pos.to_uint p) as [|u| | | | | | | | |]; try exact I.
  - now apply Hnil.
  - rewrite unorm_D0 in Hnorm.
    destruct u as [|u'|u'|u'|u'|u'|u'|u'|u'|u'|u'] eqn:Hu;
      [now apply Hzero | | | | | | | | | | ];
      (pose proof (nb_digits_unorm u) as Hle; subst u; rewrite <- Hnorm in Hle;
       simpl in Hle; specialize (Hle ltac:(discriminate)); lia).
Qed.

Lemma int_of_string_uint (u : Decimal.uint) :
  match u with Decimal.Nil | Decimal.D0 _ => False | _ => True end ->
  NilZero.int_of_string (NilEmpty.string_of_uint u) = Some (Decimal.Pos u)
  /\ NilZero.int_of_string (String "-" (NilEmpty.string_of_uint u)) = Some (Decimal.Neg u).
Proof.
  intros Hu. split.
  - rewrite <- (NilZero.isi (Decimal.Pos u)); [now destruct u | now destruct u | discriminate].
  - rewrite <- (NilZero.isi (Decimal.Neg u)); [now destruct u | discriminate | now destruct u].
Qed.

Lemma int_of_literal_uint (u : Decimal.uint) :
  match u with Decimal.Nil | Decimal.D0 _ => False | _ => True end ->
  Json.int_of_literal (py (NilEmpty.string_of_uint u)) = Some (Z.of_int (Decimal.Pos u))
  /\ Json.int_of_literal (ord "-" :: py (NilEmpty.string_of_uint u))
     = Some (Z.of_int (Decimal.Neg u)).
Proof.
  intros Hu. destruct (int_of_string_uint u Hu) as [Hpos Hneg].
  unfold Json.int_of_literal. split.
  - now rewrite ascii_text_py, Hpos.
  - change (ord "-" :: py (NilEmpty.string_of_uint u))
      with (py (String "-" (NilEmpty.string_of_uint u))).
    now rewrite ascii_text_py, Hneg.
Qed.

Lemma numeric_head_range (c : N) : numeric_head c -> (c = 45 \/ 48 <= c <= 57)%N.
Proof.
  intros [Hd | ->]; [right | now left].
  unfold Json.is_digit in Hd. apply andb_true_iff in Hd as [H1 H2].
  apply N.leb_le in H1, H2. lia.
Qed.

Lemma parse_value_numeric (fuel : nat) (c : N) (tl : pystr) (vr : pyval * pystr) :
  numeric_head c ->
  Json.parse_number (c :: tl) = Some vr ->
  Json.parse_value (S fuel) (Json.skip_ws (c :: tl)) = Ok vr.
Proof.
  intros Hc Hnum. apply numeric_head_range in Hc.
  cbn [Json.skip_ws]. unfold Json.is_ws. ord_eval. settle_tests. cbn [orb].
  cbn [Json.parse_value]. ord_eval. settle_tests.
  unfold Json.parse_atom. cbn [py Json.strip_prefix]. ord_eval. settle_tests.
  now rewrite Hnum.
Qed.

Lemma scan_integer_digit (c : N) (tl : pystr) :
  Json.is_digit c = true -> (c =? ord "0")%N = false ->
  Json.scan_integer (c :: tl)
  = Some (c :: fst (Json.take_digits tl), snd (Json.take_digits tl))
  /\ Json.scan_integer (ord "-" :: c :: tl)
     = Some (ord "-" :: c :: fst (Json.take_digits tl), snd (Json.take_digits tl)).
Proof.
  intros Hd Hz. unfold Json.scan_integer.
  assert (Hminus : (c =? ord "-")%N = false).
  { unfold Json.is_digit in Hd. apply andb_true_iff in Hd as [H1 _]. apply N.leb_le in H1.
    apply N.eqb_neq. ord_eval. lia. }
  rewrite Hminus, N.eqb_refl. cbn [fst snd app]. now rewrite Hz, Hd.
Qed.

Lemma parse_number_uint (u : Decimal.uint) (rest : pystr) :
  match u with Decimal.Nil | Decimal.D0 _ => False | _ => True end ->
  number_ends rest ->
  Json.parse_number (py (NilEmpty.string_of_uint u) ++ rest)
  = Some (PInt (Z.of_int (Decimal.Pos u)), rest)
  /\ Json.parse_number (ord "-" :: py (NilEmpty.string_of_uint u) ++ rest)
     = Some (PInt (Z.of_int (Decimal.Neg u)), rest).
Proof.
  intros Hu Hrest.
  destruct (int_of_literal_uint u Hu) as [Hpos Hneg].
  pose proof (number_ends_no_digit rest Hrest) as Hnd.
  unfold Json.parse_number.
  destruct u as [|u|u|u|u|u|u|u|u|u|u]; try contradiction;
    cbn [NilEmpty.string_of_uint py app] in *;
    match goal with
    | |- context [Json.scan_integer (?c :: ?tl)] =>
        destruct (scan_integer_digit c tl eq_refl eq_refl) as [Hs1 Hs2]
    end; rewrite Hs1, Hs2;
    rewrite take_digits_uint by assumption; cbn [fst snd];
    rewrite scan_frac_none, scan_exp_none by assumption; cbn [fst snd];
    rewrite Hpos, Hneg; split; reflexivity.
Qed.

Lemma encode_int_head (z : Z) :
  exists c tl, Json.encode_int z = c :: tl /\ numeric_head c.
Proof.
  unfold Json.encode_int.
  destruct z as [|p|p]; simpl.
  - exists (ord "0"), []; split; [reflexivity | left; reflexivity].
  - pose proof (to_uint_head p) as Hp.
    destruct (Pos.to_uint p); try contradiction;
      eexists _, _; (split; [reflexivity | left; reflexivity]).
  - pose proof (to_uint_head p) as Hp.
    destruct (Pos.to_uint p); try contradiction;
      eexists _, _; (split; [reflexivity | right; reflexivity]).
Qed.

Lemma parse_number_int (z : Z) (rest : pystr) :
  number_ends rest ->
  Json.parse_number (Json.encode_int z ++ rest) = Some (PInt z, rest).
Proof.
  intros Hrest. unfold Json.encode_int.
  rewrite <- (DecimalZ.of_to z) at 2.
  destruct z as [|p|p].
  - unfold Json.parse_number. simpl Z.to_int.
    change (py (NilZero.string_of_int (Decimal.Pos Decimal.zero)) ++ rest)
      with (ord "0" :: rest).
    change (Json.scan_integer (ord "0" :: rest)) with (Some ([ord "0"], rest)).
    cbn [fst snd]. rewrite scan_frac_none, scan_exp_none by assumption. reflexivity.
  - pose proof (to_uint_head p) as Hp.
    destruct (parse_number_uint (Pos.to_uint p) rest Hp Hrest) as [Hpos _].
    simpl Z.to_int.
    replace (NilZero.string_of_int (Decimal.Pos (Pos.to_uint p)))
      with (NilEmpty.string_of_uint (Pos.to_uint p)) by (now destruct (Pos.to_uint p)).
    exact Hpos.
  - pose proof (to_uint_head p) as Hp.
    destruct (parse_number_uint (Pos.to_uint p) rest Hp Hrest) as [_ Hneg].
    simpl Z.to_int.
    replace (NilZero.string_of_int (Decimal.Neg (Pos.to_uint p)))
      with (String "-" (NilEmpty.string_of_uint (Pos.to_uint p)))
      by (now destruct (Pos.to_uint p)).
    exact Hneg.
Qed.

Lemma parse_value_int (fuel : nat) (z : Z) (rest : pystr) :
  number_ends rest ->
  Json.parse_value (S fuel) (Json.skip_ws (Json.encode_int z ++ rest)) = Ok (PInt z, rest).
Proof.
  intros Hrest.
  pose proof (parse_number_int z rest Hrest) as Hnum.
  destruct (encode_int_head z) as (c & tl & Hz & Hc).
  rewrite Hz in *. cbn [app] in *.
  now apply parse_value_numeric.
Qed.

(** ** Serialization of a summary *)

Lemma skip_ws_nonws (c : N) (s : pystr) :
  Json.is_ws c = false -> Json.skip_ws (c :: s) = c :: s.
Proof. intros H. simpl. now rewrite H. Qed.

Lemma skip_ws_ws (c : N) (s : pystr) :
  Json.is_ws c = true -> Json.skip_ws (c :: s) = Json.skip_ws s.
Proof. intros H. simpl. now rewrite H. Qed.

Lemma parse_value_string (fuel : nat) (s X : pystr) :
  json_exact s ->
  Json.parse_value (S fuel)
    (Json.skip_ws (ord Json.dquote :: Json.escape s ++ ord Json.dquote :: X))
  = Ok (PStr s, X).
Proof.
  intros Hs. rewrite skip_ws_nonws by reflexivity.
  cbn [Json.parse_value]. rewrite N.eqb_refl, scanstring_escape by exact Hs. reflexivity.
Qed.

Lemma parse_members_more (fuel : nat) (key vtext R : pystr) (v : pyval) :
  json_exact key ->
  Json.parse_value fuel
    (Json.skip_ws (vtext ++ ord "," :: ord " " :: ord Json.dquote :: R))
  = Ok (v, ord "," :: ord " " :: ord Json.dquote :: R) ->
  Json.parse_members (S fuel)
    (Json.escape key ++
       ord Json.dquote :: ord ":" :: ord " " ::
         vtext ++ ord "," :: ord " " :: ord Json.dquote :: R)
  = Json.with_value (cons (key, v)) (Json.parse_members fuel R).
Proof.
  intros Hkey Hv. cbn [Json.parse_members]. rewrite scanstring_escape by exact Hkey.
  cbn [fst snd].
  rewrite skip_ws_nonws by reflexivity. rewrite N.eqb_refl.
  rewrite skip_ws_ws by reflexivity. rewrite Hv. cbn [fst snd].
  rewrite skip_ws_nonws by reflexivity.
  change (ord "," =? ord "}")%N with false. rewrite N.eqb_refl.
  rewrite skip_ws_ws by reflexivity.
  rewrite skip_ws_nonws by reflexivity. rewrite N.eqb_refl.
  reflexivity.
Qed.

Lemma parse_members_last (fuel : nat) (key vtext R : pystr) (v : pyval) :
  json_exact key ->
  Json.parse_value fuel (Json.skip_ws (vtext ++ ord "}" :: R)) = Ok (v, ord "}" :: R) ->
  Json.parse_members (S fuel)
    (Json.escape key ++ ord Json.dquote :: ord ":" :: ord " " :: vtext ++ ord "}" :: R)
  = Ok ([(key, v)], R).
Proof.
  intros Hkey Hv. cbn [Json.parse_members]. rewrite scanstring_escape by exact Hkey.
  cbn [fst snd].
  rewrite skip_ws_nonws by reflexivity. rewrite N.eqb_refl.
  rewrite skip_ws_ws by reflexivity. rewrite Hv. cbn [fst snd].
  rewrite skip_ws_nonws by reflexivity. rewrite N.eqb_refl.
  reflexivity.
Qed.

Lemma parse_value_encoded_string (fuel : nat) (s X : pystr) :
  json_exact s ->
  Json.parse_value (S fuel) (Json.skip_ws (Json.encode_basestring_ascii s ++ X))
  = Ok (PStr s, X).
Proof.
  intros Hs. unfold Json.encode_basestring_ascii.
  cbn [app]. rewrite <- app_assoc. cbn [app].
  now apply parse_value_string.
Qed.

Lemma dumps_summary_dict (property_id tenant_id total currency : pystr) (count : Z) :
  Json.dumps (summary_dict property_id tenant_id total currency count)
  = summary_text property_id tenant_id total currency count.
Proof.
  unfold summary_dict, summary_text, member_text, next_member.
  cbn [Json.dumps map Json.join fst snd].
  unfold Json.encode_basestring_ascii at 1 3 5 7 9.
  cbn [py app]. repeat (rewrite <- app_assoc; cbn [app]).
  reflexivity.
Qed.

Lemma summary_text_length (property_id tenant_id total currency : pystr) (count : Z) :
  exists fuel,
    (2 * length (summary_text property_id tenant_id total currency count)
     = 6 + fuel)%nat.
Proof.
  unfold summary_text, member_text.
  cbn [length]. rewrite length_app. cbn [length].
  match goal with
  | |- exists fuel, (2 * S (S (?a + S ?n)) = 6 + fuel)%nat => exists (2 * (a + n))%nat; lia
  end.
Qed.

(** Strings without surrogates, such as the literals of the source. *)
Lemma below_surrogates_exact (s : pystr) :
  forallb (fun c => (c <? 0xd800)%N) s = true -> json_exact s.
Proof.
  intros H. split.
  - unfold is_str. induction s as [|c s IH]; [reflexivity|]. cbn [forallb] in *.
    apply andb_true_iff in H as [Hc Hs]. apply N.ltb_lt in Hc.
    rewrite (IH Hs), andb_true_r. apply N.ltb_lt. lia.
  - induction s as [|c s IH]; [reflexivity|]. cbn [forallb surrogate_pair_free] in *.
    apply andb_true_iff in H as [Hc Hs]. apply N.ltb_lt in Hc.
    rewrite (IH Hs), andb_true_r.
    destruct s; [reflexivity|]. unfold Json.is_high_surrogate.
    replace (0xd800 <=? c)%N with false by (symmetry; apply N.leb_gt; lia). reflexivity.
Qed.

(** Well-formed Unicode text is represented exactly. *)
Lemma unicode_text_exact (s : pystr) : unicode_text s = true -> json_exact s.
Proof.
  intros H. split.
  - unfold is_str. induction s as [|c s IH]; [reflexivity|]. cbn [unicode_text forallb] in *.
    apply andb_true_iff in H as [Hc Hs]. apply andb_true_iff in Hc as [Hc _].
    now rewrite Hc, (IH Hs).
  - induction s as [|c s IH]; [reflexivity|].
    cbn [unicode_text forallb surrogate_pair_free] in *.
    apply andb_true_iff in H as [Hc Hs]. rewrite (IH Hs), andb_true_r.
    destruct s as [|b s]; [reflexivity|].
    apply andb_true_iff in Hc as [_ Hc]. apply negb_true_iff, andb_false_iff in Hc.
    unfold Json.is_high_surrogate. apply negb_true_iff, andb_false_iff. left.
    apply andb_false_iff.
    destruct Hc as [Hc | Hc]; [now left|]. right.
    apply N.leb_gt in Hc. apply N.leb_gt. lia.
Qed.

Lemma py_below_surrogates (s : string) : forallb (fun c => (c <? 0xd800)%N) (py s) = true.
Proof.
  induction s as [|c s IH]; [reflexivity|]. cbn [py forallb]. rewrite IH, andb_true_r.
  apply N.ltb_lt. unfold ord. pose proof (N_ascii_bounded c). lia.
Qed.

Lemma py_exact (s : string) : json_exact (py s).
Proof. apply below_surrogates_exact, py_below_surrogates. Qed.

Lemma parse_members_summary (fuel : nat) (property_id tenant_id total currency : pystr)
    (count : Z) :
  json_exact property_id -> json_exact tenant_id -> json_exact total -> json_exact currency ->
  Json.parse_members (6 + fuel)
    (member_text (py "property_id") (Json.encode_basestring_ascii property_id) (next_member
    (member_text (py "tenant_id") (Json.encode_basestring_ascii tenant_id) (next_member
    (member_text (py "total") (Json.encode_basestring_ascii total) (next_member
    (member_text (py "currency") (Json.encode_basestring_ascii currency) (next_member
    (member_text (py "count") (Json.encode_int count) [ord "}"])))))))))
  = Ok ([(py "property_id", PStr property_id); (py "tenant_id", PStr tenant_id);
         (py "total", PStr total); (py "currency", PStr currency);
         (py "count", PInt count)], []).
Proof.
  intros Hp Ht Htotal Hc.
  unfold member_text, next_member. cbn [Nat.add].
  rewrite (parse_members_more _ _ _ _ (PStr property_id))
    by (apply py_exact || now apply parse_value_encoded_string).
  rewrite (parse_members_more _ _ _ _ (PStr tenant_id))
    by (apply py_exact || now apply parse_value_encoded_string).
  rewrite (parse_members_more _ _ _ _ (PStr total))
    by (apply py_exact || now apply parse_value_encoded_string).
  rewrite (parse_members_more _ _ _ _ (PStr currency))
    by (apply py_exact || now apply parse_value_encoded_string).
  rewrite (parse_members_last _ _ _ _ (PInt count))
    by (apply py_exact
        || (apply parse_value_int; simpl; repeat split; (reflexivity || discriminate))).
  reflexivity.
Qed.

Lemma loads_dumps_summary (property_id tenant_id total currency : pystr) (count : Z) :
  json_exact property_id -> json_exact tenant_id -> json_exact total -> json_exact currency ->
  Json.loads (Json.dumps (summary_dict property_id tenant_id total currency count))
  = Ok (summary_dict property_id tenant_id total currency count).
Proof.
  intros Hp Ht Htotal Hc.
  rewrite dumps_summary_dict. unfold Json.loads.
  destruct (summary_text_length property_id tenant_id total currency count) as [fuel ->].
  unfold summary_text.
  change (Json.starts_with_bom (ord "{" :: _)) with false. cbv iota.
  rewrite skip_ws_nonws by reflexivity.
  cbn [Json.parse_value Nat.add].
  change (ord "{" =? ord Json.dquote)%N with false. rewrite N.eqb_refl.
  rewrite skip_ws_nonws by reflexivity.
  change (ord Json.dquote =? ord "}")%N with false. rewrite N.eqb_refl.
  change (S (S (S (S (S (S fuel)))))) with (6 + fuel)%nat.
  rewrite parse_members_summary by assumption. reflexivity.
Qed.

(** A total sent as a number would come back as an integer or a float; sent as
    a string it comes back as the same string. *)
Example total_as_text_or_number :
  Json.loads (py "1000") = Ok (PInt 1000)
  /\ Json.loads (py "1000.00") = Ok (PFloat (py "1000.00"))
  /\ Json.loads (Json.dumps (PStr (py "1000.00"))) = Ok (PStr (py "1000.00")).
Proof. repeat split; vm_compute; reflexivity. Qed.

Example loads_unbalanced :
  Json.loads (py "[[[[[[[[") = Raise (JSONDecodeError "Expecting value").
Proof. vm_compute. reflexivity. Qed.




(** ** The sample decimal text *)

Lemma split_at_E_uint (u : Decimal.uint) (X : pystr) :
  split_at_E (py (NilEmpty.string_of_uint u) ++ ord "E" :: X)
  = Some (py (NilEmpty.string_of_uint u), X).
Proof.
  induction u as [|u IH|u IH|u IH|u IH|u IH|u IH|u IH|u IH|u IH|u IH];
    cbn [NilEmpty.string_of_uint py app split_at_E];
    [now rewrite N.eqb_refl | ..];
    match goal with
    | |- context [(ord ?c =? ord "E")%N] => change (ord c =? ord "E")%N with false
    end; cbv iota; rewrite IH; reflexivity.
Qed.

Lemma encode_int_cases (z : Z) :
  exists u, (Json.encode_int z = py (NilEmpty.string_of_uint u)
             \/ Json.encode_int z = ord "-" :: py (NilEmpty.string_of_uint u)).
Proof.
  unfold Json.encode_int. destruct z as [|p|p]; simpl.
  - exists (Decimal.D0 Decimal.Nil). now left.
  - exists (Pos.to_uint p). left.
    pose proof (Unsigned.to_uint_nonnil p). now destruct (Pos.to_uint p).
  - exists (Pos.to_uint p). right.
    pose proof (Unsigned.to_uint_nonnil p). now destruct (Pos.to_uint p).
Qed.

Lemma split_at_E_int (z : Z) (X : pystr) :
  split_at_E (Json.encode_int z ++ ord "E" :: X) = Some (Json.encode_int z, X).
Proof.
  destruct (encode_int_cases z) as [u [-> | ->]].
  - apply split_at_E_uint.
  - cbn [app split_at_E]. change (ord "-" =? ord "E")%N with false. cbv iota.
    now rewrite split_at_E_uint.
Qed.

Lemma int_of_literal_encode_int (z : Z) :
  Json.int_of_literal (Json.encode_int z) = Some z.
Proof.
  unfold Json.int_of_literal, Json.encode_int. rewrite ascii_text_py.
  rewrite NilZero.isi.
  - cbn [option_map]. now rewrite DecimalZ.of_to.
  - destruct z as [|p|p]; simpl; try discriminate.
    pose proof (Unsigned.to_uint_nonnil p). congruence.
  - destruct z as [|p|p]; simpl; try discriminate.
    pose proof (Unsigned.to_uint_nonnil p). congruence.
Qed.

Lemma sample_Decimal_round_trip (d : Decimal) :
  Decimal_of_Decimal_str sample_platform d = Ok d.
Proof.
  destruct d as [c e].
  unfold Decimal_of_Decimal_str, sample_platform, sample_Decimal_str, sample_Decimal_of_str.
  cbn [Decimal_str Decimal_of_str coefficient exponent].
  rewrite split_at_E_int. cbn [fst snd].
  now rewrite !int_of_literal_encode_int.
Qed.

Lemma sample_prints_exact_text : prints_exact_text sample_platform.
Proof.
  intros d. cbn [sample_platform Decimal_str]. unfold sample_Decimal_str, Json.encode_int.
  match goal with
  | |- json_exact (py ?a ++ ord "E" :: py ?b) =>
      change (py a ++ ord "E" :: py b) with (py a ++ py (String "E" b))
  end.
  rewrite <- py_append. apply py_exact.
Qed.

(** ** Two requests within the lifetime of an entry *)

Lemma mock_total_exact (property_id : pystr) :
  json_exact (mock_total (mock_property_data property_id)).
Proof.
  unfold mock_property_data.
  destruct (mock_data !! property_id) as [e|] eqn:He; cbn [default from_option id];
    [|apply py_exact].
  apply elem_of_list_to_map_2 in He.
  repeat (apply elem_of_cons in He as [He | He];
          [apply (f_equal snd) in He; cbn [snd] in He; subst e; apply py_exact|]).
  now apply elem_of_nil in He.
Qed.

(** The totals of the summaries come from [str] on a decimal or from the
    literals of the source. *)
Lemma total_revenue_exact (pf : Platform) (db_pool : DbPool) (property_id tenant_id : pystr) :
  prints_exact_text pf ->
  exists total count,
    calculate_total_revenue pf db_pool property_id tenant_id
    = Ok (summary_dict property_id tenant_id total (py "USD") count)
    /\ json_exact total.
Proof.
  intros Hpf. unfold_service.
  destruct (initialize_fault db_pool);
    [eexists _, _; split; [reflexivity | apply mock_total_exact]|].
  destruct (session_factory db_pool);
    [|eexists _, _; split; [reflexivity | apply mock_total_exact]].
  destruct (get_session_fault db_pool);
    [eexists _, _; split; [reflexivity | apply mock_total_exact]|].
  destruct (execute_fault db_pool);
    [eexists _, _; split; [reflexivity | apply mock_total_exact]|].
  destruct (total_query (tables db_pool) property_id tenant_id) as [row|];
    [|eexists _, _; split; [reflexivity | apply py_exact]].
  destruct (Decimal_of_Decimal_str pf (total_revenue row));
    eexists _, _; (split; [reflexivity|]); [apply Hpf | apply mock_total_exact].
Qed.

Lemma dumps_summary_truthy (property_id tenant_id total currency : pystr) (count : Z) :
  truthy_bytes (Some (Json.dumps (summary_dict property_id tenant_id total currency count)))
  = true.
Proof. rewrite dumps_summary_dict. reflexivity. Qed.

Lemma live_entry_elapse_hit (w : World) (key : pystr) (ms : Z) :
  (forall v expires_at,
     redis w !! key = Some (v, expires_at) -> now w < expires_at -> v <> [] ->
     now w + ms < expires_at) ->
  truthy_bytes (live_entry w key) = true ->
  live_entry (elapse ms w) key = live_entry w key.
Proof.
  intros Hlive Hhit. unfold live_entry in *. simpl.
  destruct (redis w !! key) as [[v expires_at]|] eqn:Hk; [|reflexivity].
  destruct (now w <? expires_at) eqn:Hnow; [|discriminate Hhit].
  apply Z.ltb_lt in Hnow.
  assert (Hv : v <> []) by (intros ->; discriminate Hhit).
  pose proof (Hlive v expires_at eq_refl Hnow Hv) as Hlater.
  apply Z.ltb_lt in Hlater. now rewrite Hlater.
Qed.

Lemma live_entry_after_setex (w : World) (key value : pystr) (seconds ms : Z) :
  0 <= ms < seconds * 1000 ->
  live_entry
    (elapse ms (mk_World (now w) (<[key := (value, now w + seconds * 1000)]> (redis w))
                  (aggregations w))) key
  = Some value.
Proof.
  intros Hms. unfold live_entry. simpl. rewrite lookup_insert_eq.
  replace (now w + ms <? now w + seconds * 1000) with true; [reflexivity|].
  symmetry. apply Z.ltb_lt. lia.
Qed.

(** C7. With a cache client that does not raise and an unchanged database, a
    second request for the same property and tenant, made less than 300
    seconds after the first and before the expiry of a non-empty entry that
    the first request found, returns the same result; it is answered from the
    cache without invoking the aggregator, which the first request invoked at
    most once.  The ids are strings that the JSON text represents exactly,
    as all well-formed Unicode text is. *)
Theorem repeated_request_served_from_cache (pf : Platform) (redis_client : CacheClient)
    (db_pool : DbPool) (property_id tenant_id : pystr) (w : World) (ms : Z) :
  prints_exact_text pf -> json_exact property_id -> json_exact tenant_id ->
  get_fault redis_client = None -> setex_fault redis_client = None ->
  0 <= ms < 300 * 1000 ->
  (forall v expires_at,
     redis w !! cache_key property_id tenant_id = Some (v, expires_at) ->
     now w < expires_at -> v <> [] -> now w + ms < expires_at) ->
  let first := get_revenue_summary pf redis_client db_pool property_id tenant_id w in
  let second := get_revenue_summary pf redis_client db_pool property_id tenant_id
                  (elapse ms (snd first)) in
  fst second = fst first
  /\ aggregations (snd second) = aggregations (snd first)
  /\ (aggregations (snd first) <= S (aggregations w))%nat.
Proof.
  intros Hpf Hp Ht Hget Hset Hms Hlive. cbv zeta.
  unfold get_revenue_summary, redis_get, redis_setex, bind, may_raise.
  rewrite Hget, Hset.
  destruct (truthy_bytes (live_entry w (cache_key property_id tenant_id))) eqn:Hhit.
  - cbn [fst snd].
    rewrite (live_entry_elapse_hit _ _ _ Hlive Hhit), Hhit. cbn [fst snd].
    repeat split. simpl. lia.
  - destruct (total_revenue_exact pf db_pool property_id tenant_id Hpf)
      as (total & count & -> & Htotal).
    cbn [fst snd].
    rewrite live_entry_after_setex by assumption.
    rewrite dumps_summary_truthy. cbn [fst snd default from_option id].
    rewrite loads_dumps_summary by (assumption || apply py_exact).
    repeat split. simpl. lia.
Qed.

Lemma repeated_request_served_from_cache_witness :
  let first := get_revenue_summary sample_platform working_cache healthy_pool
                 nihon grinning fresh_world in
  let second := get_revenue_summary sample_platform working_cache healthy_pool
                  nihon grinning (elapse 299999 (snd first)) in
  fst second = fst first
  /\ aggregations (snd second) = aggregations (snd first)
  /\ (aggregations (snd first) <= S (aggregations fresh_world))%nat.
Proof.
  apply (repeated_request_served_from_cache sample_platform working_cache healthy_pool
           nihon grinning fresh_world 299999).
  - exact sample_prints_exact_text.
  - split; reflexivity.
  - split; reflexivity.
  - reflexivity.
  - reflexivity.
  - lia.
  - intros v expires_at H. simpl in H. rewrite lookup_empty in H. discriminate H.
Defined.

(** ** Order of timestamps *)

Lemma lex_compare_refl (l : list Z) : lex_compare l l = Eq.
Proof. induction l as [|x l IH]; simpl; [reflexivity|]. now rewrite Z.compare_refl. Qed.

Lemma dt_le_refl (t : datetime) : dt_le t t.
Proof. unfold dt_le, dt_compare. now rewrite lex_compare_refl. Qed.

Lemma dt_lt_irrefl (t : datetime) : ~ dt_lt t t.
Proof. unfold dt_lt, dt_compare. now rewrite lex_compare_refl. Qed.

Lemma dt_leb_le (a b : datetime) : dt_leb a b = true <-> dt_le a b.
Proof. unfold dt_leb, dt_le. destruct (dt_compare a b); split; congruence. Qed.

Lemma dt_ltb_lt (a b : datetime) : dt_ltb a b = true <-> dt_lt a b.
Proof. unfold dt_ltb, dt_lt. destruct (dt_compare a b); split; congruence. Qed.

Lemma month_bounds_inv (month year : Z) (start_date end_date : datetime) :
  month_bounds month year = Ok (start_date, end_date) ->
  1 <= month <= 12 /\ 1 <= year <= 9999 /\ ~ (month = 12 /\ year = 9999).
Proof.
  unfold month_bounds, datetime_new, bind, MINYEAR, MAXYEAR.
  destruct ((1 <=? year) && (year <=? 9999)) eqn:Hy; [|discriminate].
  destruct ((1 <=? month) && (month <=? 12)) eqn:Hm; [|discriminate].
  apply andb_true_iff in Hy as [Hy1 Hy2]. apply andb_true_iff in Hm as [Hm1 Hm2].
  cbn [negb].
  destruct ((1 <=? 1) && (1 <=? days_in_month year month)); [|discriminate].
  cbn [negb].
  destruct (month <? 12) eqn:Hlt; [lia|].
  destruct ((1 <=? year + 1) && (year + 1 <=? 9999)) eqn:Hy'; [|discriminate].
  apply andb_true_iff in Hy' as [_ Hy']. lia.
Qed.

Lemma month_bounds_ordered (m y : Z) (start_date end_date : datetime) :
  month_bounds m y = Ok (start_date, end_date) -> dt_lt start_date end_date.
Proof.
  intros Hb. pose proof (month_bounds_inv _ _ _ _ Hb) as (Hm & Hy & Hlast).
  rewrite month_bounds_value in Hb by assumption.
  unfold dt_lt, dt_compare.
  destruct (m <? 12) eqn:Hlt; injection Hb as <- <-;
    cbn [lex_compare dt_fields year month day hour minute second microsecond].
  - rewrite Z.compare_refl. apply Z.ltb_lt in Hlt.
    replace (m ?= m + 1) with Lt; [reflexivity|]. symmetry. apply Z.compare_lt_iff. lia.
  - replace (y ?= y + 1) with Lt; [reflexivity|]. symmetry. apply Z.compare_lt_iff. lia.
Qed.

Lemma previous_month_end (month year : Z) (start_date end_date start' end' : datetime) :
  month_bounds month year = Ok (start_date, end_date) ->
  month_bounds (fst (previous_month month year)) (snd (previous_month month year))
  = Ok (start', end') ->
  end' = start_date.
Proof.
  intros Hb Hp.
  pose proof (month_bounds_inv _ _ _ _ Hb) as (Hm & Hy & Hlast).
  pose proof (month_bounds_inv _ _ _ _ Hp) as (Hm' & Hy' & Hlast').
  rewrite month_bounds_value in Hb by assumption.
  rewrite month_bounds_value in Hp by assumption.
  injection Hb as <- _. injection Hp as _ <-.
  unfold previous_month in *.
  destruct (month =? 1) eqn:H1; cbn [fst snd] in *.
  - apply Z.eqb_eq in H1. subst month. simpl. f_equal. lia.
  - apply Z.eqb_neq in H1.
    replace (month - 1 <? 12) with true by (symmetry; apply Z.ltb_lt; lia).
    f_equal. lia.
Qed.

Create HintDb calendar.
#[local] Hint Resolve dt_le_refl month_bounds_ordered : calendar.

(** ** Values of decimals *)

Lemma ten_nonzero : ~ inject_Z 10 == 0%Q.
Proof. discriminate. Qed.

Lemma Qpower_ten_split (e k : Z) :
  (inject_Z 10 ^ e == inject_Z 10 ^ (e - k) * inject_Z 10 ^ k)%Q.
Proof.
  rewrite <- Qpower_plus by apply ten_nonzero.
  now replace (e - k + k) with e by lia.
Qed.

Lemma dec_Q_add (a b : Decimal) : (dec_Q (dec_add a b) == dec_Q a + dec_Q b)%Q.
Proof.
  unfold dec_Q, dec_add. cbn [coefficient exponent].
  set (e := Z.min (exponent a) (exponent b)).
  rewrite (Qpower_ten_split (exponent a) e), (Qpower_ten_split (exponent b) e).
  rewrite inject_Z_plus, !inject_Z_mult, !Zpower_Qpower by lia.
  ring.
Qed.

Lemma dec_Q_fold_left (l : list Decimal) (d : Decimal) :
  (dec_Q (fold_left dec_add l d) == dec_Q d + Qsum (map dec_Q l))%Q.
Proof.
  revert d. induction l as [|a l IH]; intros d; simpl.
  - ring.
  - rewrite IH, dec_Q_add. ring.
Qed.

Lemma dec_Q_zero : (dec_Q Decimal_zero == 0)%Q.
Proof. reflexivity. Qed.

Lemma dec_Q_falsy (d : Decimal) : dec_truthy d = false -> (dec_Q d == 0)%Q.
Proof.
  unfold dec_truthy, dec_Q. intros H. apply negb_false_iff, Z.eqb_eq in H.
  rewrite H. ring.
Qed.

Lemma Qsum_map_map {A : Type} (f : A -> Decimal) (l : list A) :
  Qsum (map dec_Q (map f l)) = Qsum (map (fun x => dec_Q (f x)) l).
Proof. now rewrite map_map. Qed.

(** ** Rows and scopes *)

Lemma reservation_of_spec (property_id tenant_id : pystr) (r : Reservation) :
  reservation_of property_id tenant_id r = true
  <-> r_property_id r = property_id /\ r_tenant_id r = tenant_id.
Proof. unfold reservation_of. now rewrite andb_true_iff, !str_eqb_eq. Qed.

Lemma scoped_to_pair (property_id tenant_id : pystr) (r : Reservation) (p : Property) :
  scoped_to property_id tenant_id (r, p) = reservation_of property_id tenant_id r.
Proof. reflexivity. Qed.

Lemma filter_scoped_pairs (property_id tenant_id : pystr) (r : Reservation)
    (ps : list Property) :
  List.filter (scoped_to property_id tenant_id) (map (pair r) ps)
  = if reservation_of property_id tenant_id r then map (pair r) ps else [].
Proof.
  induction ps as [|p ps IH]; simpl.
  - now destruct (reservation_of property_id tenant_id r).
  - rewrite IH, scoped_to_pair.
    now destruct (reservation_of property_id tenant_id r).
Qed.

Lemma join_on_scoped (property_id tenant_id : pystr) (r : Reservation) (ps : list Property) :
  reservation_of property_id tenant_id r = true ->
  List.filter (join_on r) (List.filter (property_of property_id tenant_id) ps)
  = List.filter (join_on r) ps.
Proof.
  intros Hr. apply reservation_of_spec in Hr as [Hp Ht].
  induction ps as [|p ps IH]; simpl; [reflexivity|].
  destruct (property_of property_id tenant_id p) eqn:Hprop; simpl; rewrite IH.
  - reflexivity.
  - replace (join_on r p) with false; [reflexivity|].
    symmetry. unfold join_on, property_of in *. rewrite Hp, Ht.
    rewrite (str_eqb_sym property_id), (str_eqb_sym tenant_id). exact Hprop.
Qed.

Lemma filter_scoped_joined (property_id tenant_id : pystr) (db : Database) :
  List.filter (scoped_to property_id tenant_id) (joined db)
  = joined (scope_tables property_id tenant_id db).
Proof.
  unfold joined, scope_tables. cbn [reservations properties].
  induction (reservations db) as [|r rs IH]; simpl; [reflexivity|].
  rewrite List.filter_app, IH, filter_scoped_pairs.
  destruct (reservation_of property_id tenant_id r) eqn:Hr; simpl; [|reflexivity].
  now rewrite join_on_scoped.
Qed.

Lemma filter_monthly_where_scoped (pf : Platform) (property_id tenant_id : pystr)
    (start_date end_date : datetime) (l : list (Reservation * Property)) :
  List.filter (monthly_where pf property_id tenant_id start_date end_date) l
  = List.filter (fun rp => dt_leb start_date (local_check_in pf rp)
                           && dt_ltb (local_check_in pf rp) end_date)
      (List.filter (scoped_to property_id tenant_id) l).
Proof.
  induction l as [|rp l IH]; simpl; [reflexivity|].
  unfold monthly_where at 1.
  destruct (scoped_to property_id tenant_id rp); simpl; rewrite IH; reflexivity.
Qed.

Lemma join_on_property_of (property_id tenant_id : pystr) (r : Reservation) (p : Property) :
  reservation_of property_id tenant_id r = true ->
  join_on r p = property_of property_id tenant_id p.
Proof.
  intros Hr. apply reservation_of_spec in Hr as [Hp Ht].
  unfold join_on, property_of. rewrite Hp, Ht.
  now rewrite (str_eqb_sym (p_id p)), (str_eqb_sym (p_tenant_id p)).
Qed.

(** When the property of the tenant is stored once, the join pairs each of
    its reservations with that row, once. *)
Lemma filter_scoped_joined_once (property_id tenant_id : pystr) (db : Database) (p : Property) :
  stored_once db property_id tenant_id p ->
  List.filter (scoped_to property_id tenant_id) (joined db)
  = map (fun r => (r, p))
      (List.filter (reservation_of property_id tenant_id) (reservations db)).
Proof.
  unfold stored_once, joined. intros Hp.
  induction (reservations db) as [|r rs IH]; simpl; [reflexivity|].
  rewrite List.filter_app, IH, filter_scoped_pairs.
  destruct (reservation_of property_id tenant_id r) eqn:Hr; [|reflexivity].
  rewrite (filter_ext _ _ (fun q => join_on_property_of _ _ r q Hr)), Hp. reflexivity.
Qed.

Lemma list_filter_decide {A} (f : A -> bool) (P : A -> Prop) `{!forall x, Decision (P x)}
    (l : list A) :
  (forall x, f x = true <-> P x) -> List.filter f l = filter P l.
Proof.
  intros Hspec. induction l as [|x l IH]; [reflexivity|].
  rewrite filter_cons. simpl. rewrite IH.
  destruct (f x) eqn:Hf; destruct (decide (P x)) as [Hp | Hp]; try reflexivity.
  - apply Hspec in Hf. contradiction.
  - apply Hspec in Hp. congruence.
Qed.

Lemma filter_map_pair {A B} (f : A * B -> bool) (b : B) (l : list A) :
  List.filter f (map (fun a => (a, b)) l)
  = map (fun a => (a, b)) (List.filter (fun a => f (a, b)) l).
Proof.
  induction l as [|a l IH]; simpl; [reflexivity|].
  rewrite IH. now destruct (f (a, b)).
Qed.

(** The rows that the monthly statement selects, over the reservations. *)
Lemma monthly_rows_once (pf : Platform) (property_id tenant_id : pystr) (db : Database)
    (p : Property) (start_date end_date : datetime) :
  stored_once db property_id tenant_id p ->
  map (fun rp => total_amount (fst rp))
    (List.filter (monthly_where pf property_id tenant_id start_date end_date) (joined db))
  = map total_amount
      (List.filter
         (fun r => reservation_of property_id tenant_id r
                   && dt_leb start_date (spec_local_check_in pf (timezone p) r)
                   && dt_ltb (spec_local_check_in pf (timezone p) r) end_date)
         (reservations db)).
Proof.
  intros Hp.
  rewrite filter_monthly_where_scoped, (filter_scoped_joined_once _ _ _ _ Hp).
  rewrite filter_map_pair, map_map. cbn [fst].
  induction (reservations db) as [|r rs IH]; simpl; [reflexivity|].
  destruct (reservation_of property_id tenant_id r); simpl; [|exact IH].
  unfold local_check_in, spec_local_check_in in *. cbn [fst snd] in *.
  destruct (dt_leb start_date _ && dt_ltb _ end_date); simpl; now rewrite IH.
Qed.

(** ** The monthly statement *)

Section MonthlyStatement.

Variable pf : Platform.

(** The [decimal] module reads back the text it prints for a decimal. *)
Hypothesis Decimal_round_trip : forall d, Decimal_of_Decimal_str pf d = Ok d.

Lemma monthly_where_spec (property_id tenant_id zone : pystr)
    (start_date end_date : datetime) (r : Reservation) :
  reservation_of property_id tenant_id r
  && dt_leb start_date (spec_local_check_in pf zone r)
  && dt_ltb (spec_local_check_in pf zone r) end_date = true
  <-> spec_selected pf property_id tenant_id zone start_date end_date r.
Proof.
  unfold spec_selected.
  rewrite !andb_true_iff, reservation_of_spec, dt_leb_le, dt_ltb_lt. tauto.
Qed.

Lemma monthly_where_pair (property_id tenant_id : pystr)
    (start_date end_date : datetime) (r : Reservation) (p : Property) :
  monthly_where pf property_id tenant_id start_date end_date (r, p) = true
  <-> spec_selected pf property_id tenant_id (timezone p) start_date end_date r.
Proof. apply monthly_where_spec. Qed.

(** The value of the monthly revenue when the statement runs: the sum of the
    amounts of the reservations that the specification selects, and the
    decimal zero when that sum is zero. *)
Lemma monthly_revenue_value (db_pool : DbPool) (property_id tenant_id : pystr) (m y : Z)
    (start_date end_date : datetime) (p : Property) :
  db_available db_pool ->
  month_bounds m y = Ok (start_date, end_date) ->
  stored_once (tables db_pool) property_id tenant_id p ->
  exists d,
    calculate_monthly_revenue pf db_pool property_id m y tenant_id = Ok d
    /\ (dec_Q d
        == spec_monthly_total pf (tables db_pool) property_id tenant_id (timezone p)
             start_date end_date)%Q
    /\ (coefficient d = 0 -> d = Decimal_zero).
Proof.
  intros (Hi & Hf & Hs & He) Hbounds Hp.
  unfold calculate_monthly_revenue, try_except, bind, may_raise.
  rewrite Hi, Hf, Hs, Hbounds, He. cbn [fst snd].
  unfold monthly_query, spec_monthly_total.
  rewrite (monthly_rows_once pf _ _ _ p _ _ Hp).
  rewrite (list_filter_decide _ _ _ (fun r => monthly_where_spec _ _ (timezone p) _ _ r)).
  set (rows := filter (spec_selected pf property_id tenant_id (timezone p) start_date end_date)
                 (reservations (tables db_pool))).
  rewrite <- (Qsum_map_map total_amount).
  destruct (map total_amount rows) as [|a l]; cbn [sql_sum].
  - exists Decimal_zero. repeat split; reflexivity.
  - destruct (dec_truthy (fold_left dec_add l a)) eqn:Ht.
    + rewrite Decimal_round_trip. eexists; split; [reflexivity|]. split.
      * rewrite dec_Q_fold_left. reflexivity.
      * intros Hz. unfold dec_truthy in Ht. rewrite Hz in Ht. discriminate Ht.
    + exists Decimal_zero. split; [reflexivity|]. split; [|reflexivity].
      apply dec_Q_falsy in Ht. rewrite dec_Q_fold_left in Ht.
      rewrite dec_Q_zero. symmetry. exact Ht.
Qed.

(** C3. When the statement runs, the month has boundaries [start] and [end]
    and the property of the tenant is stored once, the monthly revenue is the
    sum of the amounts of exactly the reservations of the tenant and property
    whose check-in instant, read as UTC and reprojected into the zone of the
    property, is at or after [start] and before [end].  A reservation whose
    local check-in is the first instant of the month is selected for that
    month and not for the month before, by the specification and by the
    [WHERE] clause of the statement alike. *)
Theorem monthly_revenue_half_open (db_pool : DbPool)
    (property_id tenant_id : pystr) (m y : Z) (start_date end_date : datetime)
    (p : Property) :
  db_available db_pool ->
  month_bounds m y = Ok (start_date, end_date) ->
  stored_once (tables db_pool) property_id tenant_id p ->
  (exists d,
     calculate_monthly_revenue pf db_pool property_id m y tenant_id = Ok d
     /\ (dec_Q d
         == spec_monthly_total pf (tables db_pool) property_id tenant_id (timezone p)
              start_date end_date)%Q)
  /\ (forall r,
        r_property_id r = property_id -> r_tenant_id r = tenant_id ->
        spec_local_check_in pf (timezone p) r = start_date ->
        (spec_selected pf property_id tenant_id (timezone p) start_date end_date r
         /\ monthly_where pf property_id tenant_id start_date end_date (r, p) = true)
        /\ (forall start' end',
              month_bounds (fst (previous_month m y)) (snd (previous_month m y))
              = Ok (start', end') ->
              ~ spec_selected pf property_id tenant_id (timezone p) start' end' r
              /\ monthly_where pf property_id tenant_id start' end' (r, p) = false)).
Proof.
  intros Hdb Hbounds Hp. split.
  - destruct (monthly_revenue_value db_pool property_id tenant_id m y _ _ p Hdb Hbounds Hp)
      as (d & Hd & Hsum & _).
    now exists d.
  - intros r Hpid Htid Hlocal.
    assert (Hin : spec_selected pf property_id tenant_id (timezone p) start_date end_date r).
    { unfold spec_selected. rewrite Hlocal. repeat split; try assumption.
      - auto with calendar.
      - eauto with calendar. }
    split; [split; [exact Hin | now apply monthly_where_pair]|].
    intros start' end' Hprev.
    assert (Hout : ~ spec_selected pf property_id tenant_id (timezone p) start' end' r).
    { intros (_ & _ & _ & Hlt).
      rewrite (previous_month_end _ _ _ _ _ _ Hbounds Hprev), Hlocal in Hlt.
      now apply dt_lt_irrefl in Hlt. }
    split; [exact Hout|].
    destruct (monthly_where pf property_id tenant_id start' end' (r, p)) eqn:Hw;
      [|reflexivity].
    now apply monthly_where_pair in Hw.
Qed.

End MonthlyStatement.

Lemma monthly_revenue_half_open_witness :
  (exists d,
     calculate_monthly_revenue sample_platform tokyo_pool (py "prop-002") 3 2024 (py "tenant-a")
     = Ok d
     /\ (dec_Q d
         == spec_monthly_total sample_platform (tables tokyo_pool) (py "prop-002")
              (py "tenant-a")
              (timezone (mk_Property (py "prop-002") (py "tenant-a") (py "Asia/Tokyo")))
              (mk_datetime 2024 3 1 0 0 0 0) (mk_datetime 2024 4 1 0 0 0 0))%Q)
  /\ (forall r,
        r_property_id r = py "prop-002" -> r_tenant_id r = py "tenant-a" ->
        spec_local_check_in sample_platform
          (timezone (mk_Property (py "prop-002") (py "tenant-a") (py "Asia/Tokyo"))) r
        = mk_datetime 2024 3 1 0 0 0 0 ->
        (spec_selected sample_platform (py "prop-002") (py "tenant-a")
           (timezone (mk_Property (py "prop-002") (py "tenant-a") (py "Asia/Tokyo")))
           (mk_datetime 2024 3 1 0 0 0 0) (mk_datetime 2024 4 1 0 0 0 0) r
         /\ monthly_where sample_platform (py "prop-002") (py "tenant-a")
              (mk_datetime 2024 3 1 0 0 0 0) (mk_datetime 2024 4 1 0 0 0 0)
              (r, mk_Property (py "prop-002") (py "tenant-a") (py "Asia/Tokyo")) = true)
        /\ (forall start' end',
              month_bounds (fst (previous_month 3 2024)) (snd (previous_month 3 2024))
              = Ok (start', end') ->
              ~ spec_selected sample_platform (py "prop-002") (py "tenant-a")
                  (timezone (mk_Property (py "prop-002") (py "tenant-a") (py "Asia/Tokyo")))
                  start' end' r
              /\ monthly_where sample_platform (py "prop-002") (py "tenant-a") start' end'
                   (r, mk_Property (py "prop-002") (py "tenant-a") (py "Asia/Tokyo"))
                 = false)).
Proof.
  apply (monthly_revenue_half_open sample_platform sample_Decimal_round_trip
           tokyo_pool (py "prop-002") (py "tenant-a") 3 2024).
  - repeat split; reflexivity.
  - reflexivity.
  - reflexivity.
Defined.

Example march_revenue :
  calculate_monthly_revenue sample_platform healthy_pool (py "prop-001") 3 2024 (py "tenant-a")
  = Ok (mk_Decimal 35050 (-2))
  /\ calculate_monthly_revenue sample_platform healthy_pool (py "prop-001") 2 2024
       (py "tenant-a")
     = Ok Decimal_zero
  /\ calculate_monthly_revenue sample_platform healthy_pool (py "prop-001") 4 2024
       (py "tenant-a")
     = Ok (mk_Decimal 9900 (-2)).
Proof. repeat split; vm_compute; reflexivity. Qed.

(** In Tokyo the reservation that checks in on 29 February at 15:00 UTC, the
    first instant of March on the local clock, counts for March and not for
    February, and the one that checks in on 31 March at 15:00 UTC counts for
    April. *)
Example tokyo_march_revenue :
  calculate_monthly_revenue sample_platform tokyo_pool (py "prop-002") 2 2024 (py "tenant-a")
  = Ok (mk_Decimal 11100 (-2))
  /\ calculate_monthly_revenue sample_platform tokyo_pool (py "prop-002") 3 2024
       (py "tenant-a")
     = Ok (mk_Decimal 35050 (-2))
  /\ calculate_monthly_revenue sample_platform tokyo_pool (py "prop-002") 4 2024
       (py "tenant-a")
     = Ok (mk_Decimal 9900 (-2)).
Proof. repeat split; vm_compute; reflexivity. Qed.

(** * Further properties *)

(** ** Keys and ids *)

Lemma split_at_first_colon (T1 T2 P1 P2 : pystr) :
  has_colon T1 = false -> has_colon T2 = false ->
  T1 ++ ord ":" :: P1 = T2 ++ ord ":" :: P2 -> T1 = T2 /\ P1 = P2.
Proof.
  revert T2. induction T1 as [|a T1 IH]; intros [|b T2] H1 H2 Heq; cbn [app] in Heq.
  - injection Heq as ->. now split.
  - injection Heq as <- _. cbn [has_colon] in H2. rewrite N.eqb_refl in H2. discriminate H2.
  - injection Heq as -> _. cbn [has_colon] in H1. rewrite N.eqb_refl in H1. discriminate H1.
  - injection Heq as -> Heq. cbn [has_colon] in H1, H2.
    apply orb_false_iff in H1 as [_ H1]. apply orb_false_iff in H2 as [_ H2].
    destruct (IH T2 H1 H2 Heq) as [-> ->]. now split.
Qed.

(** X1. When neither tenant id contains a colon, two requests that differ in
    the tenant or in the property have different keys. *)
Theorem cache_key_injective_without_colon (P1 T1 P2 T2 : pystr) :
  has_colon T1 = false -> has_colon T2 = false ->
  (T1, P1) <> (T2, P2) -> cache_key P1 T1 <> cache_key P2 T2.
Proof.
  intros H1 H2 Hne Heq. apply Hne. unfold cache_key in Heq.
  apply app_inv_head in Heq.
  destruct (split_at_first_colon _ _ _ _ H1 H2 Heq) as [-> ->]. reflexivity.
Qed.

Lemma cache_key_injective_without_colon_witness :
  cache_key (py "prop:1") (py "tenant-a") <> cache_key (py "1") (py "tenant-b").
Proof.
  apply (cache_key_injective_without_colon (py "prop:1") (py "tenant-a") (py "1") (py "tenant-b"));
    [reflexivity | reflexivity | discriminate].
Defined.

Lemma cache_key_regroup (x y z : pystr) :
  cache_key (y ++ py ":" ++ z) x = cache_key z (x ++ py ":" ++ y).
Proof.
  unfold cache_key. now rewrite <- !app_assoc.
Qed.

(** X2. A colon inside an id regroups: the key of property [y:z] for tenant
    [x] is the key of property [z] for the different tenant [x:y]. *)
Theorem cache_key_colon_regrouping (x y z : pystr) :
  cache_key (y ++ py ":" ++ z) x = cache_key z (x ++ py ":" ++ y)
  /\ x <> x ++ py ":" ++ y.
Proof.
  split; [apply cache_key_regroup|].
  intros H. apply (f_equal length) in H.
  rewrite !length_app in H. simpl in H. lia.
Qed.

(** ** The cache-aside path, step by step *)

Lemma truthy_bytes_false (cached : option pystr) :
  truthy_bytes cached = false <-> cached = None \/ cached = Some [].
Proof.
  destruct cached as [[|c v]|]; simpl; split; intros H; try discriminate; auto.
  destruct H as [H | H]; discriminate H.
Qed.

Lemma get_revenue_summary_hit (pf : Platform) (redis_client : CacheClient) (db_pool : DbPool)
    (property_id tenant_id : pystr) (w : World) (c : N) (v : pystr) :
  get_fault redis_client = None ->
  live_entry w (cache_key property_id tenant_id) = Some (c :: v) ->
  get_revenue_summary pf redis_client db_pool property_id tenant_id w
  = (Json.loads (c :: v), w).
Proof.
  intros Hget Hlive. unfold get_revenue_summary, redis_get, bind, may_raise.
  rewrite Hget, Hlive. reflexivity.
Qed.

Lemma get_revenue_summary_miss (pf : Platform) (redis_client : CacheClient) (db_pool : DbPool)
    (property_id tenant_id : pystr) (w : World) :
  get_fault redis_client = None -> setex_fault redis_client = None ->
  truthy_bytes (live_entry w (cache_key property_id tenant_id)) = false ->
  exists total count,
    calculate_total_revenue pf db_pool property_id tenant_id
    = Ok (summary_dict property_id tenant_id total (py "USD") count)
    /\ get_revenue_summary pf redis_client db_pool property_id tenant_id w
       = (Ok (summary_dict property_id tenant_id total (py "USD") count),
          mk_World (now w)
            (<[cache_key property_id tenant_id :=
                 (Json.dumps (summary_dict property_id tenant_id total (py "USD") count),
                  now w + 300 * 1000)]> (redis w))
            (S (aggregations w))).
Proof.
  intros Hget Hset Hmiss.
  destruct (total_revenue_well_formed pf db_pool property_id tenant_id)
    as (total & count & Htotal).
  exists total, count. split; [exact Htotal|].
  unfold get_revenue_summary, redis_get, redis_setex, bind, may_raise.
  rewrite Hget, Hmiss, Htotal, Hset. reflexivity.
Qed.

Lemma live_entry_written (w : World) (key value : pystr) (expires_at ms : Z) (n : nat) :
  live_entry (elapse ms (mk_World (now w) (<[key := (value, expires_at)]> (redis w)) n)) key
  = if now w + ms <? expires_at then Some value else None.
Proof. unfold live_entry. simpl. now rewrite lookup_insert_eq. Qed.

Lemma second_request_same_key (pf : Platform) (client1 client2 : CacheClient)
    (pool1 pool2 : DbPool) (P1 T1 P2 T2 : pystr) (w : World) (ms : Z)
    (total : pystr) (count : Z) :
  get_fault client1 = None -> setex_fault client1 = None ->
  get_fault client2 = None ->
  truthy_bytes (live_entry w (cache_key P1 T1)) = false ->
  0 <= ms < 300 * 1000 ->
  cache_key P2 T2 = cache_key P1 T1 ->
  calculate_total_revenue pf pool1 P1 T1 = Ok (summary_dict P1 T1 total (py "USD") count) ->
  json_exact P1 -> json_exact T1 -> json_exact total ->
  let first := get_revenue_summary pf client1 pool1 P1 T1 w in
  let second := get_revenue_summary pf client2 pool2 P2 T2 (elapse ms (snd first)) in
  fst first = calculate_total_revenue pf pool1 P1 T1
  /\ fst second = fst first
  /\ aggregations (snd second) = S (aggregations w).
Proof.
  intros Hget1 Hset1 Hget2 Hmiss Hms Hkey Htotal HP HT Hexact. cbv zeta.
  assert (Hfirst : get_revenue_summary pf client1 pool1 P1 T1 w
            = (Ok (summary_dict P1 T1 total (py "USD") count),
               mk_World (now w)
                 (<[cache_key P1 T1 :=
                      (Json.dumps (summary_dict P1 T1 total (py "USD") count),
                       now w + 300 * 1000)]> (redis w))
                 (S (aggregations w)))).
  { unfold get_revenue_summary, redis_get, redis_setex, bind, may_raise.
    rewrite Hget1, Hmiss, Htotal, Hset1. reflexivity. }
  rewrite Hfirst. cbn [fst snd]. rewrite Htotal.
  assert (Hlive : live_entry
            (elapse ms (mk_World (now w)
               (<[cache_key P1 T1 :=
                    (Json.dumps (summary_dict P1 T1 total (py "USD") count),
                     now w + 300 * 1000)]>
                  (redis w)) (S (aggregations w))))
            (cache_key P2 T2)
          = Some (summary_text P1 T1 total (py "USD") count)).
  { rewrite Hkey, live_entry_written, dumps_summary_dict.
    replace (now w + ms <? now w + 300 * 1000) with true; [reflexivity|].
    symmetry. apply Z.ltb_lt. lia. }
  unfold summary_text at 1 in Hlive.
  rewrite (get_revenue_summary_hit _ _ _ _ _ _ _ _ Hget2 Hlive).
  cbn [fst snd]. split; [reflexivity|]. split; [|reflexivity].
  fold (summary_text P1 T1 total (py "USD") count).
  rewrite <- dumps_summary_dict. apply loads_dumps_summary; (assumption || apply py_exact).
Qed.

Lemma request_frame (pf : Platform) (redis_client : CacheClient) (db_pool : DbPool)
    (P T : pystr) (w : World) (k : pystr) :
  k <> cache_key P T ->
  redis (snd (get_revenue_summary pf redis_client db_pool P T w)) !! k = redis w !! k.
Proof.
  intros Hk. unfold get_revenue_summary, redis_get, redis_setex, bind, may_raise.
  destruct (get_fault redis_client); [reflexivity|].
  destruct (truthy_bytes (live_entry w (cache_key P T))); [reflexivity|].
  destruct (calculate_total_revenue pf db_pool P T); [|reflexivity].
  destruct (setex_fault redis_client); [reflexivity|].
  cbn [snd redis count_aggregation]. now rewrite lookup_insert_ne by congruence.
Qed.

Lemma cache_key_tenant_inj (P T1 T2 : pystr) :
  cache_key P T1 = cache_key P T2 -> T1 = T2.
Proof.
  unfold cache_key. intros Heq.
  apply app_inv_head in Heq. rewrite !(app_assoc _ (py ":")) in Heq.
  apply app_inv_tail in Heq. now apply app_inv_tail in Heq.
Qed.

Lemma request_keeps_clock (pf : Platform) (redis_client : CacheClient) (db_pool : DbPool)
    (P T : pystr) (w : World) :
  now (snd (get_revenue_summary pf redis_client db_pool P T w)) = now w.
Proof.
  unfold get_revenue_summary, redis_get, redis_setex, bind, may_raise.
  destruct (get_fault redis_client); [reflexivity|].
  destruct (truthy_bytes (live_entry w (cache_key P T))); [reflexivity|].
  destruct (calculate_total_revenue pf db_pool P T); [|reflexivity].
  destruct (setex_fault redis_client); reflexivity.
Qed.

Lemma falsy_entry_stays_falsy (w w' : World) (k : pystr) (ms : Z) :
  redis w' !! k = redis w !! k -> now w' = now w -> 0 <= ms ->
  truthy_bytes (live_entry w k) = false ->
  truthy_bytes (live_entry (elapse ms w') k) = false.
Proof.
  intros Hr Hn Hms. unfold live_entry. cbn [elapse redis now]. rewrite Hr, Hn.
  destruct (redis w !! k) as [[v expires_at]|]; [|reflexivity].
  destruct (now w <? expires_at) eqn:Hlive.
  - intros Hv. now destruct (now w + ms <? expires_at).
  - intros _. apply Z.ltb_ge in Hlive.
    replace (now w + ms <? expires_at) with false; [reflexivity|].
    symmetry. apply Z.ltb_ge. lia.
Qed.

(** X3. After a miss has stored its summary, a request whose ids give the same
    key, made less than 300 seconds later, is answered with that summary: the
    aggregator is not invoked again, whatever the database holds by then and
    whichever tenant and property produced the key.  The ids of the first
    request are strings that the JSON text represents exactly. *)
Theorem shared_key_shares_entry (pf : Platform) (client1 client2 : CacheClient)
    (pool1 pool2 : DbPool) (P1 T1 P2 T2 : pystr) (w : World) (ms : Z) :
  prints_exact_text pf -> json_exact P1 -> json_exact T1 ->
  get_fault client1 = None -> setex_fault client1 = None ->
  get_fault client2 = None ->
  truthy_bytes (live_entry w (cache_key P1 T1)) = false ->
  0 <= ms < 300 * 1000 ->
  cache_key P2 T2 = cache_key P1 T1 ->
  let first := get_revenue_summary pf client1 pool1 P1 T1 w in
  let second := get_revenue_summary pf client2 pool2 P2 T2 (elapse ms (snd first)) in
  fst second = calculate_total_revenue pf pool1 P1 T1
  /\ aggregations (snd second) = S (aggregations w).
Proof.
  intros Hpf HP HT Hget1 Hset1 Hget2 Hmiss Hms Hkey.
  destruct (total_revenue_exact pf pool1 P1 T1 Hpf) as (total & count & Htotal & Hexact).
  destruct (second_request_same_key pf client1 client2 pool1 pool2 P1 T1 P2 T2 w ms
              total count Hget1 Hset1 Hget2 Hmiss Hms Hkey Htotal HP HT Hexact)
    as (H1 & H2 & H3).
  cbv zeta. split; [now rewrite H2|exact H3].
Qed.

Lemma shared_key_shares_entry_witness :
  let first := get_revenue_summary sample_platform working_cache colon_ids_pool
                 (py "b:c") (py "a") fresh_world in
  let second := get_revenue_summary sample_platform working_cache colon_ids_pool
                  (py "c") (py "a:b") (elapse 1000 (snd first)) in
  fst second = calculate_total_revenue sample_platform colon_ids_pool (py "b:c") (py "a")
  /\ aggregations (snd second) = S (aggregations fresh_world).
Proof.
  apply (shared_key_shares_entry sample_platform working_cache working_cache
           colon_ids_pool colon_ids_pool (py "b:c") (py "a") (py "c") (py "a:b") fresh_world 1000);
    first [exact sample_prints_exact_text | apply py_exact | reflexivity | lia].
Defined.

(** X4. The placeholder summary of a database fault is cached like any other:
    for 300 seconds every request for the same property and tenant receives
    it, also from a database that works again.  The ids are strings that the
    JSON text represents exactly. *)
Theorem placeholder_is_cached (pf : Platform) (client1 client2 : CacheClient)
    (pool1 pool2 : DbPool) (P T : pystr) (w : World) (ms : Z) :
  json_exact P -> json_exact T ->
  get_fault client1 = None -> setex_fault client1 = None ->
  get_fault client2 = None ->
  truthy_bytes (live_entry w (cache_key P T)) = false ->
  db_unavailable pool1 ->
  0 <= ms < 300 * 1000 ->
  let first := get_revenue_summary pf client1 pool1 P T w in
  let second := get_revenue_summary pf client2 pool2 P T (elapse ms (snd first)) in
  fst first = Ok (placeholder_summary P T)
  /\ fst second = Ok (placeholder_summary P T).
Proof.
  intros HP HT Hget1 Hset1 Hget2 Hmiss Hdown Hms.
  destruct (second_request_same_key pf client1 client2 pool1 pool2 P T P T w ms _ _
              Hget1 Hset1 Hget2 Hmiss Hms eq_refl
              (total_revenue_unavailable pf pool1 P T Hdown) HP HT (mock_total_exact P))
    as (H1 & H2 & _).
  cbv zeta in *. rewrite H2, H1. split; now apply total_revenue_unavailable.
Qed.

Lemma placeholder_is_cached_witness :
  let first := get_revenue_summary sample_platform working_cache pool_down
                 (py "prop-001") (py "tenant-a") fresh_world in
  let second := get_revenue_summary sample_platform working_cache healthy_pool
                  (py "prop-001") (py "tenant-a") (elapse 299999 (snd first)) in
  fst first = Ok (placeholder_summary (py "prop-001") (py "tenant-a"))
  /\ fst second = Ok (placeholder_summary (py "prop-001") (py "tenant-a")).
Proof.
  apply (placeholder_is_cached sample_platform working_cache working_cache
           pool_down healthy_pool (py "prop-001") (py "tenant-a") fresh_world 299999);
    try reflexivity; try apply py_exact.
  - right; left; reflexivity.
  - lia.
Defined.

(** X5. A request leaves the clock and every entry under another key as they
    were, whatever faults occur; in particular the entries of the other
    tenants for the same property id. *)
Theorem request_touches_only_its_key (pf : Platform) (redis_client : CacheClient)
    (db_pool : DbPool) (P T : pystr) (w : World) :
  let w' := snd (get_revenue_summary pf redis_client db_pool P T w) in
  now w' = now w
  /\ (forall k, k <> cache_key P T ->
                redis w' !! k = redis w !! k /\ live_entry w' k = live_entry w k)
  /\ (forall T', T' <> T -> live_entry w' (cache_key P T') = live_entry w (cache_key P T')).
Proof.
  cbv zeta.
  assert (Hnow : now (snd (get_revenue_summary pf redis_client db_pool P T w)) = now w).
  { unfold get_revenue_summary, redis_get, redis_setex, bind, may_raise.
    destruct (get_fault redis_client); [reflexivity|].
    destruct (truthy_bytes (live_entry w (cache_key P T))); [reflexivity|].
    destruct (calculate_total_revenue pf db_pool P T); [|reflexivity].
    destruct (setex_fault redis_client); reflexivity. }
  assert (Hframe : forall k, k <> cache_key P T ->
            redis (snd (get_revenue_summary pf redis_client db_pool P T w)) !! k = redis w !! k
            /\ live_entry (snd (get_revenue_summary pf redis_client db_pool P T w)) k
               = live_entry w k).
  { intros k Hk. pose proof (request_frame pf redis_client db_pool P T w k Hk) as Hr.
    split; [exact Hr|]. unfold live_entry. now rewrite Hr, Hnow. }
  split; [exact Hnow|]. split; [exact Hframe|].
  intros T' HT. apply Hframe. intros Heq. apply HT. now apply cache_key_tenant_inj in Heq.
Qed.

(** X6. A request of a tenant that has no live entry is answered by the
    aggregator for that tenant, also right after another tenant asked for
    the same property id. *)
Theorem other_tenant_is_not_served (pf : Platform) (client1 client2 : CacheClient)
    (pool1 pool2 : DbPool) (P T1 T2 : pystr) (w : World) (ms : Z) :
  T1 <> T2 ->
  get_fault client2 = None -> setex_fault client2 = None ->
  truthy_bytes (live_entry w (cache_key P T2)) = false ->
  0 <= ms ->
  let first := get_revenue_summary pf client1 pool1 P T1 w in
  let second := get_revenue_summary pf client2 pool2 P T2 (elapse ms (snd first)) in
  fst second = calculate_total_revenue pf pool2 P T2
  /\ exists total count, fst second = Ok (summary_dict P T2 total (py "USD") count).
Proof.
  intros Hne Hget Hset Hmiss Hms. cbv zeta.
  assert (Hk : cache_key P T2 <> cache_key P T1).
  { intros Heq. apply Hne. symmetry. now apply cache_key_tenant_inj in Heq. }
  pose proof (falsy_entry_stays_falsy w _ _ ms
                (request_frame pf client1 pool1 P T1 w _ Hk)
                (request_keeps_clock pf client1 pool1 P T1 w) Hms Hmiss) as Hmiss2.
  destruct (get_revenue_summary_miss pf client2 pool2 P T2 _ Hget Hset Hmiss2)
    as (total & count & Htotal & ->).
  cbn [fst]. rewrite Htotal. split; [reflexivity|]. eauto.
Qed.

Lemma other_tenant_is_not_served_witness :
  let first := get_revenue_summary sample_platform working_cache healthy_pool
                 (py "prop-001") (py "tenant-a") fresh_world in
  let second := get_revenue_summary sample_platform working_cache healthy_pool
                  (py "prop-001") (py "tenant-b") (elapse 1000 (snd first)) in
  fst second = calculate_total_revenue sample_platform healthy_pool (py "prop-001") (py "tenant-b")
  /\ exists total count,
       fst second = Ok (summary_dict (py "prop-001") (py "tenant-b") total (py "USD") count).
Proof.
  apply (other_tenant_is_not_served sample_platform working_cache working_cache
           healthy_pool healthy_pool (py "prop-001") (py "tenant-a") (py "tenant-b") fresh_world 1000);
    first [discriminate | reflexivity | lia].
Defined.

(** X7. 300 seconds after a miss stored its summary the entry is gone: the
    next request invokes the aggregator again and returns what it computes
    then. *)
Theorem entry_expires_after_ttl (pf : Platform) (client1 client2 : CacheClient)
    (pool1 pool2 : DbPool) (P T : pystr) (w : World) (ms : Z) :
  get_fault client1 = None -> setex_fault client1 = None ->
  get_fault client2 = None -> setex_fault client2 = None ->
  truthy_bytes (live_entry w (cache_key P T)) = false ->
  300 * 1000 <= ms ->
  let first := get_revenue_summary pf client1 pool1 P T w in
  let second := get_revenue_summary pf client2 pool2 P T (elapse ms (snd first)) in
  fst second = calculate_total_revenue pf pool2 P T
  /\ aggregations (snd second) = S (S (aggregations w)).
Proof.
  intros Hget1 Hset1 Hget2 Hset2 Hmiss Hms. cbv zeta.
  destruct (get_revenue_summary_miss pf client1 pool1 P T w Hget1 Hset1 Hmiss)
    as (total & count & _ & ->).
  cbn [fst snd].
  match goal with
  | |- context [get_revenue_summary pf client2 pool2 P T ?w1] =>
      assert (Hgone : truthy_bytes (live_entry w1 (cache_key P T)) = false)
  end.
  { rewrite live_entry_written.
    replace (now w + ms <? now w + 300 * 1000) with false; [reflexivity|].
    symmetry. apply Z.ltb_ge. lia. }
  destruct (get_revenue_summary_miss pf client2 pool2 P T _ Hget2 Hset2 Hgone)
    as (total2 & count2 & Htotal2 & ->).
  cbn [fst snd]. rewrite Htotal2. split; reflexivity.
Qed.

Lemma entry_expires_after_ttl_witness :
  let first := get_revenue_summary sample_platform working_cache pool_down
                 (py "prop-001") (py "tenant-a") fresh_world in
  let second := get_revenue_summary sample_platform working_cache healthy_pool
                  (py "prop-001") (py "tenant-a") (elapse 300000 (snd first)) in
  fst second = calculate_total_revenue sample_platform healthy_pool (py "prop-001") (py "tenant-a")
  /\ aggregations (snd second) = S (S (aggregations fresh_world)).
Proof.
  apply (entry_expires_after_ttl sample_platform working_cache working_cache
           pool_down healthy_pool (py "prop-001") (py "tenant-a") fresh_world 300000);
    first [reflexivity | lia].
Defined.

(** X8. When no entry is live, or the live entry is empty, the request returns
    what the aggregator computes, counts one invocation and stores under its
    key a text that decodes to the returned summary and expires 300 seconds
    later.  The ids are strings that the JSON text represents exactly. *)
Theorem miss_stores_summary (pf : Platform) (redis_client : CacheClient) (db_pool : DbPool)
    (P T : pystr) (w : World) :
  prints_exact_text pf -> json_exact P -> json_exact T ->
  get_fault redis_client = None -> setex_fault redis_client = None ->
  live_entry w (cache_key P T) = None \/ live_entry w (cache_key P T) = Some [] ->
  let r := get_revenue_summary pf redis_client db_pool P T w in
  fst r = calculate_total_revenue pf db_pool P T
  /\ aggregations (snd r) = S (aggregations w)
  /\ exists text,
       redis (snd r) !! cache_key P T = Some (text, now w + 300 * 1000)
       /\ Json.loads text = fst r.
Proof.
  intros Hpf HP HT Hget Hset Hmiss. apply truthy_bytes_false in Hmiss. cbv zeta.
  destruct (total_revenue_exact pf db_pool P T Hpf) as (total & count & Htotal & Hexact).
  unfold get_revenue_summary, redis_get, redis_setex, bind, may_raise.
  rewrite Hget, Hmiss, Htotal, Hset.
  cbn [fst snd redis aggregations count_aggregation now].
  split; [reflexivity|]. split; [reflexivity|].
  eexists. split; [apply lookup_insert_eq|].
  apply loads_dumps_summary; (assumption || apply py_exact).
Qed.

Lemma miss_stores_summary_witness :
  let r := get_revenue_summary sample_platform working_cache healthy_pool
             (py "prop-001") (py "tenant-a") fresh_world in
  fst r = calculate_total_revenue sample_platform healthy_pool (py "prop-001") (py "tenant-a")
  /\ aggregations (snd r) = S (aggregations fresh_world)
  /\ exists text,
       redis (snd r) !! cache_key (py "prop-001") (py "tenant-a")
       = Some (text, now fresh_world + 300 * 1000)
       /\ Json.loads text = fst r.
Proof.
  apply (miss_stores_summary sample_platform working_cache healthy_pool
           (py "prop-001") (py "tenant-a") fresh_world);
    first [exact sample_prints_exact_text | apply py_exact | reflexivity | idtac].
  left. reflexivity.
Defined.

(** ** Rows outside the scope, and the order of rows *)

Lemma total_query_depends_on_scope (property_id tenant_id : pystr) (db1 db2 : Database) :
  scope_tables property_id tenant_id db1 = scope_tables property_id tenant_id db2 ->
  total_query db1 property_id tenant_id = total_query db2 property_id tenant_id.
Proof.
  intros Hscope. unfold total_query. now rewrite !filter_scoped_joined, Hscope.
Qed.

Lemma monthly_query_depends_on_scope (pf : Platform) (property_id tenant_id : pystr)
    (start_date end_date : datetime) (db1 db2 : Database) :
  scope_tables property_id tenant_id db1 = scope_tables property_id tenant_id db2 ->
  monthly_query pf db1 property_id tenant_id start_date end_date
  = monthly_query pf db2 property_id tenant_id start_date end_date.
Proof.
  intros Hscope. unfold monthly_query.
  now rewrite !filter_monthly_where_scoped, !filter_scoped_joined, Hscope.
Qed.

(** X9. The total and the monthly revenue of a property of a tenant depend
    only on the reservations and the property rows with that property id and
    tenant id: rows of other tenants or properties do not change them. *)
Theorem other_rows_do_not_matter (pf : Platform)
    (init : option exn) (factory : bool) (session execute : option exn)
    (db1 db2 : Database) (property_id tenant_id : pystr) :
  scope_tables property_id tenant_id db1 = scope_tables property_id tenant_id db2 ->
  calculate_total_revenue pf (mk_DbPool init factory session execute db1)
    property_id tenant_id
  = calculate_total_revenue pf (mk_DbPool init factory session execute db2)
      property_id tenant_id
  /\ (forall m y,
        calculate_monthly_revenue pf (mk_DbPool init factory session execute db1)
          property_id m y tenant_id
        = calculate_monthly_revenue pf (mk_DbPool init factory session execute db2)
            property_id m y tenant_id).
Proof.
  intros Hscope. split.
  - unfold calculate_total_revenue.
    cbn [initialize_fault session_factory get_session_fault execute_fault tables].
    now rewrite (total_query_depends_on_scope _ _ _ _ Hscope).
  - intros m y. unfold calculate_monthly_revenue, try_except, bind, may_raise.
    cbn [initialize_fault session_factory get_session_fault execute_fault tables].
    destruct init; [reflexivity|]. destruct factory; [|reflexivity].
    destruct session; [reflexivity|].
    destruct (month_bounds m y) as [bounds|x]; [|reflexivity].
    destruct execute; [reflexivity|].
    now rewrite (monthly_query_depends_on_scope pf _ _ (fst bounds) (snd bounds) _ _ Hscope).
Qed.

Lemma other_rows_do_not_matter_witness :
  calculate_total_revenue sample_platform (mk_DbPool None true None None sample_tables)
    (py "prop-001") (py "tenant-a")
  = calculate_total_revenue sample_platform (mk_DbPool None true None None tenant_a_tables)
      (py "prop-001") (py "tenant-a")
  /\ (forall m y,
        calculate_monthly_revenue sample_platform
          (mk_DbPool None true None None sample_tables) (py "prop-001") m y (py "tenant-a")
        = calculate_monthly_revenue sample_platform
            (mk_DbPool None true None None tenant_a_tables) (py "prop-001") m y (py "tenant-a")).
Proof.
  apply (other_rows_do_not_matter sample_platform None true None None
           sample_tables tenant_a_tables (py "prop-001") (py "tenant-a")).
  reflexivity.
Defined.

Lemma dec_add_comm (a b : Decimal) : dec_add a b = dec_add b a.
Proof.
  unfold dec_add. cbv zeta. rewrite (Z.min_comm (exponent b)). f_equal. lia.
Qed.

Lemma pow10_split (a k e : Z) : e <= k <= a -> 10 ^ (a - k) * 10 ^ (k - e) = 10 ^ (a - e).
Proof.
  intros H. rewrite <- Z.pow_add_r by lia. f_equal. lia.
Qed.

Lemma dec_add_assoc (a b c : Decimal) : dec_add (dec_add a b) c = dec_add a (dec_add b c).
Proof.
  unfold dec_add. cbv zeta. cbn [coefficient exponent].
  rewrite Z.min_assoc. f_equal.
  set (e := Z.min (Z.min (exponent a) (exponent b)) (exponent c)).
  set (e1 := Z.min (exponent a) (exponent b)).
  set (e2 := Z.min (exponent b) (exponent c)).
  rewrite !Z.mul_add_distr_r, <- !Z.mul_assoc.
  rewrite (pow10_split (exponent a) e1 e), (pow10_split (exponent b) e1 e),
    (pow10_split (exponent b) e2 e), (pow10_split (exponent c) e2 e) by lia.
  lia.
Qed.

Lemma fold_left_dec_add_perm (l l' : list Decimal) :
  Permutation l l' -> forall d, fold_left dec_add l d = fold_left dec_add l' d.
Proof.
  induction 1 as [|x l l' _ IH|x y l|l l' l'' _ IH1 _ IH2]; intros d; simpl.
  - reflexivity.
  - apply IH.
  - f_equal. rewrite !dec_add_assoc. f_equal. apply dec_add_comm.
  - now rewrite IH1.
Qed.

Lemma sql_sum_perm (l l' : list Decimal) : Permutation l l' -> sql_sum l = sql_sum l'.
Proof.
  induction 1 as [|x l l' Hp _|x y l|l l' l'' _ IH1 _ IH2]; simpl.
  - reflexivity.
  - f_equal. now apply fold_left_dec_add_perm.
  - f_equal. f_equal. apply dec_add_comm.
  - now rewrite IH1.
Qed.

Lemma filter_perm {A} (f : A -> bool) (l l' : list A) :
  Permutation l l' -> Permutation (List.filter f l) (List.filter f l').
Proof.
  induction 1 as [|x l l' _ IH|x y l|l l' l'' _ IH1 _ IH2]; simpl.
  - constructor.
  - destruct (f x); [now constructor | exact IH].
  - destruct (f x), (f y); try reflexivity. constructor.
  - now transitivity (List.filter f l').
Qed.

Lemma flat_map_pointwise_perm {A B} (f g : A -> list B) (l : list A) :
  (forall x, Permutation (f x) (g x)) -> Permutation (flat_map f l) (flat_map g l).
Proof.
  intros Hfg. induction l as [|x l IH]; simpl; [constructor|].
  now apply Permutation_app.
Qed.

Lemma joined_perm (db1 db2 : Database) :
  Permutation (reservations db1) (reservations db2) ->
  Permutation (properties db1) (properties db2) ->
  Permutation (joined db1) (joined db2).
Proof.
  intros Hr Hp. unfold joined.
  transitivity (flat_map (fun r => map (pair r) (List.filter (join_on r) (properties db2)))
                  (reservations db1)).
  - apply flat_map_pointwise_perm. intros r.
    apply Permutation_map. now apply filter_perm.
  - now apply Permutation_flat_map.
Qed.

Lemma total_query_perm (db1 db2 : Database) (property_id tenant_id : pystr) :
  Permutation (reservations db1) (reservations db2) ->
  Permutation (properties db1) (properties db2) ->
  total_query db1 property_id tenant_id = total_query db2 property_id tenant_id.
Proof.
  intros Hr Hp. unfold total_query.
  pose proof (filter_perm (scoped_to property_id tenant_id) _ _ (joined_perm _ _ Hr Hp))
    as Hrows.
  pose proof (Permutation_length Hrows) as Hlen.
  pose proof (sql_sum_perm _ _
                (Permutation_map (fun x : Reservation * Property => total_amount (fst x)) Hrows))
    as Hsum.
  destruct (List.filter (scoped_to property_id tenant_id) (joined db1)) as [|rp1 rest1];
    destruct (List.filter (scoped_to property_id tenant_id) (joined db2)) as [|rp2 rest2];
    try discriminate Hlen; [reflexivity|].
  cbn [map sql_sum] in Hsum. injection Hsum as Hsum. now rewrite Hsum, Hlen.
Qed.

Lemma monthly_query_perm (pf : Platform) (db1 db2 : Database) (property_id tenant_id : pystr)
    (start_date end_date : datetime) :
  Permutation (reservations db1) (reservations db2) ->
  Permutation (properties db1) (properties db2) ->
  monthly_query pf db1 property_id tenant_id start_date end_date
  = monthly_query pf db2 property_id tenant_id start_date end_date.
Proof.
  intros Hr Hp. unfold monthly_query. do 2 f_equal.
  apply sql_sum_perm, Permutation_map, filter_perm. now apply joined_perm.
Qed.

(** X10. The total and the monthly revenue do not depend on the order in
    which the rows of the two tables are stored. *)
Theorem row_order_does_not_matter (pf : Platform)
    (init : option exn) (factory : bool) (session execute : option exn)
    (db1 db2 : Database) (property_id tenant_id : pystr) :
  Permutation (reservations db1) (reservations db2) ->
  Permutation (properties db1) (properties db2) ->
  calculate_total_revenue pf (mk_DbPool init factory session execute db1)
    property_id tenant_id
  = calculate_total_revenue pf (mk_DbPool init factory session execute db2)
      property_id tenant_id
  /\ (forall m y,
        calculate_monthly_revenue pf (mk_DbPool init factory session execute db1)
          property_id m y tenant_id
        = calculate_monthly_revenue pf (mk_DbPool init factory session execute db2)
            property_id m y tenant_id).
Proof.
  intros Hr Hp. split.
  - unfold calculate_total_revenue.
    cbn [initialize_fault session_factory get_session_fault execute_fault tables].
    now rewrite (total_query_perm _ _ property_id tenant_id Hr Hp).
  - intros m y. unfold calculate_monthly_revenue, try_except, bind, may_raise.
    cbn [initialize_fault session_factory get_session_fault execute_fault tables].
    destruct init; [reflexivity|]. destruct factory; [|reflexivity].
    destruct session; [reflexivity|].
    destruct (month_bounds m y) as [bounds|x]; [|reflexivity].
    destruct execute; [reflexivity|].
    now rewrite (monthly_query_perm pf _ _ property_id tenant_id (fst bounds) (snd bounds)
                   Hr Hp).
Qed.

Lemma row_order_does_not_matter_witness :
  calculate_total_revenue sample_platform
    (mk_DbPool None true None None sample_tables) (py "prop-001") (py "tenant-a")
  = calculate_total_revenue sample_platform
      (mk_DbPool None true None None
         (mk_Database (rev (reservations sample_tables)) (rev (properties sample_tables))))
      (py "prop-001") (py "tenant-a")
  /\ (forall m y,
        calculate_monthly_revenue sample_platform
          (mk_DbPool None true None None sample_tables) (py "prop-001") m y (py "tenant-a")
        = calculate_monthly_revenue sample_platform
            (mk_DbPool None true None None
               (mk_Database (rev (reservations sample_tables))
                  (rev (properties sample_tables))))
            (py "prop-001") m y (py "tenant-a")).
Proof.
  apply (row_order_does_not_matter sample_platform None true None None sample_tables
           (mk_Database (rev (reservations sample_tables)) (rev (properties sample_tables)))
           (py "prop-001") (py "tenant-a")); cbn [reservations properties]; apply Permutation_rev.
Defined.

(** ** The total over the reservations of the tenant *)


Section TotalStatement.

Variable pf : Platform.

(** The [decimal] module reads back the text it prints for a decimal. *)
Hypothesis Decimal_round_trip : forall d, Decimal_of_Decimal_str pf d = Ok d.


End TotalStatement.


(** ** Months *)

Lemma month_bounds_invalid (m y : Z) :
  m < 1 \/ 12 < m \/ y < 1 \/ 9999 < y \/ (m = 12 /\ y = 9999) ->
  exists e, month_bounds m y = Raise e.
Proof.
  intros Hbad. destruct (month_bounds m y) as [[s e]|x] eqn:Hb; [|eauto].
  apply month_bounds_inv in Hb. lia.
Qed.

(** X12. For a month outside 1..12, a year outside 1..9999 or December 9999,
    the monthly revenue is the decimal zero whatever the database holds: the
    failed construction of the boundaries is caught like a database fault. *)
Theorem monthly_revenue_invalid_month (pf : Platform) (db_pool : DbPool)
    (property_id : pystr) (m y : Z) (tenant_id : pystr) :
  m < 1 \/ 12 < m \/ y < 1 \/ 9999 < y \/ (m = 12 /\ y = 9999) ->
  calculate_monthly_revenue pf db_pool property_id m y tenant_id = Ok Decimal_zero.
Proof.
  intros Hbad. destruct (month_bounds_invalid m y Hbad) as [e He].
  unfold calculate_monthly_revenue, try_except, bind, may_raise. rewrite He.
  destruct (initialize_fault db_pool); [reflexivity|].
  destruct (session_factory db_pool); [|reflexivity].
  destruct (get_session_fault db_pool); reflexivity.
Qed.

Lemma monthly_revenue_invalid_month_witness :
  calculate_monthly_revenue sample_platform healthy_pool (py "prop-001") 13 2024 (py "tenant-a")
  = Ok Decimal_zero.
Proof.
  apply (monthly_revenue_invalid_month sample_platform healthy_pool (py "prop-001") 13 2024
           (py "tenant-a")). lia.
Defined.

Ltac compare_fields :=
  repeat match goal with
         | |- context [?a ?= ?b] => destruct (Z.compare_spec a b)
         end.

Lemma window_is_month (m y : Z) (start_date end_date t : datetime) :
  month_bounds m y = Ok (start_date, end_date) ->
  datetime_wf t ->
  (dt_le start_date t /\ dt_lt t end_date) <-> (year t = y /\ month t = m).
Proof.
  intros Hb (Hmonth & Hday & Hhour & Hminute & Hsecond & Hmicro).
  pose proof (month_bounds_inv _ _ _ _ Hb) as (Hm & Hy & Hlast).
  rewrite month_bounds_value in Hb by assumption.
  destruct t as [ty tm td th tmi ts tus].
  cbn [year month day hour minute second microsecond] in *.
  unfold dt_le, dt_lt, dt_compare.
  destruct (m <? 12) eqn:Hlt; injection Hb as <- <-;
    [apply Z.ltb_lt in Hlt | apply Z.ltb_ge in Hlt];
    cbn [lex_compare dt_fields year month day hour minute second microsecond];
    compare_fields; split; intros Hw; try (destruct Hw as [Hw1 Hw2]);
    try congruence; try lia; try (split; (congruence || lia)).
Qed.

Lemma window_is_monthb (m y : Z) (start_date end_date t : datetime) :
  month_bounds m y = Ok (start_date, end_date) ->
  datetime_wf t ->
  dt_leb start_date t && dt_ltb t end_date = (year t =? y) && (month t =? m).
Proof.
  intros Hb Hwf.
  pose proof (window_is_month m y start_date end_date t Hb Hwf) as Hwin.
  rewrite <- dt_leb_le, <- dt_ltb_lt, <- andb_true_iff in Hwin.
  rewrite <- !Z.eqb_eq, <- andb_true_iff in Hwin.
  destruct (dt_leb start_date t && dt_ltb t end_date);
    destruct ((year t =? y) && (month t =? m)); try reflexivity.
  - now apply proj1 in Hwin; specialize (Hwin eq_refl).
  - now apply proj2 in Hwin; specialize (Hwin eq_refl).
Qed.

Lemma filter_scoped_empty (db : Database) (property_id tenant_id : pystr) :
  (forall r, In r (reservations db) ->
             ~ (r_property_id r = property_id /\ r_tenant_id r = tenant_id)) ->
  List.filter (scoped_to property_id tenant_id) (joined db) = [].
Proof.
  intros Hnone.
  destruct (List.filter (scoped_to property_id tenant_id) (joined db)) as [|rp rest] eqn:Hf;
    [reflexivity|].
  assert (Hin : In rp (List.filter (scoped_to property_id tenant_id) (joined db)))
    by (rewrite Hf; left; reflexivity).
  apply filter_In in Hin as [Hj Hs].
  apply scoped_to_spec in Hs. apply joined_reservation in Hj.
  destruct (Hnone _ Hj Hs).
Qed.

(** X13. When no reservation carries the requested property id and tenant id,
    the monthly revenue is the decimal zero, on every path. *)
Theorem monthly_no_reservations_zero (pf : Platform) (db_pool : DbPool)
    (property_id : pystr) (m y : Z) (tenant_id : pystr) :
  (forall r, In r (reservations (tables db_pool)) ->
             ~ (r_property_id r = property_id /\ r_tenant_id r = tenant_id)) ->
  calculate_monthly_revenue pf db_pool property_id m y tenant_id = Ok Decimal_zero.
Proof.
  intros Hnone. unfold calculate_monthly_revenue, try_except, bind, may_raise.
  destruct (initialize_fault db_pool); [reflexivity|].
  destruct (session_factory db_pool); [|reflexivity].
  destruct (get_session_fault db_pool); [reflexivity|].
  destruct (month_bounds m y) as [bounds|]; [|reflexivity].
  destruct (execute_fault db_pool); [reflexivity|].
  unfold monthly_query.
  rewrite filter_monthly_where_scoped, (filter_scoped_empty _ _ _ Hnone). reflexivity.
Qed.

Lemma monthly_no_reservations_zero_witness :
  calculate_monthly_revenue sample_platform healthy_pool (py "prop-001") 3 2024 (py "tenant-c")
  = Ok Decimal_zero.
Proof.
  apply (monthly_no_reservations_zero sample_platform healthy_pool (py "prop-001") 3 2024
           (py "tenant-c")).
  intros r Hr [_ Ht]. simpl in Hr.
  destruct Hr as [<- | [<- | [<- | [<- | []]]]]; discriminate Ht.
Defined.

Section MonthlyValue.

Variable pf : Platform.

(** The [decimal] module reads back the text it prints for a decimal. *)
Hypothesis Decimal_round_trip : forall d, Decimal_of_Decimal_str pf d = Ok d.

(** X14. When the statement runs, the property of the tenant is stored once
    and the local check-in of each of its reservations is a well-formed
    timestamp, the monthly revenue of month [m] of year [y] is the sum of the
    amounts of the reservations of the tenant and property whose check-in, on
    the clock of the property's zone, has year [y] and month [m]. *)
Theorem monthly_revenue_of_calendar_month (db_pool : DbPool)
    (property_id tenant_id : pystr) (m y : Z) (p : Property) :
  db_available db_pool ->
  1 <= m <= 12 -> 1 <= y <= 9999 -> ~ (m = 12 /\ y = 9999) ->
  stored_once (tables db_pool) property_id tenant_id p ->
  (forall r, In r (reservations (tables db_pool)) ->
             reservation_of property_id tenant_id r = true ->
             datetime_wf (spec_local_check_in pf (timezone p) r)) ->
  exists d,
    calculate_monthly_revenue pf db_pool property_id m y tenant_id = Ok d
    /\ (dec_Q d
        == Qsum (map (fun r => dec_Q (total_amount r))
             (List.filter (in_calendar_month pf property_id tenant_id (timezone p) m y)
                (reservations (tables db_pool)))))%Q.
Proof.
  intros Hdb Hm Hy Hlast Hp Hwf.
  pose proof (month_bounds_value m y Hm Hy Hlast) as Hb.
  destruct (monthly_revenue_value pf Decimal_round_trip db_pool property_id tenant_id m y
              _ _ p Hdb Hb Hp) as (d & Hd & Hsum & _).
  exists d. split; [exact Hd|]. rewrite Hsum. unfold spec_monthly_total.
  rewrite <- (list_filter_decide _ _ _
                (fun r => monthly_where_spec pf _ _ (timezone p) _ _ r)).
  erewrite filter_ext_in; [reflexivity|].
  intros r Hr. unfold in_calendar_month. cbv beta.
  destruct (reservation_of property_id tenant_id r) eqn:Hscope; [|reflexivity].
  cbn [andb].
  apply (window_is_monthb m y _ _ _ Hb). now apply Hwf.
Qed.

End MonthlyValue.

Lemma monthly_revenue_of_calendar_month_witness :
  exists d,
    calculate_monthly_revenue sample_platform tokyo_pool (py "prop-002") 3 2024 (py "tenant-a")
    = Ok d
    /\ (dec_Q d
        == Qsum (map (fun r => dec_Q (total_amount r))
             (List.filter
                (in_calendar_month sample_platform (py "prop-002") (py "tenant-a")
                   (timezone (mk_Property (py "prop-002") (py "tenant-a") (py "Asia/Tokyo")))
                   3 2024)
                (reservations (tables tokyo_pool)))))%Q.
Proof.
  apply (monthly_revenue_of_calendar_month sample_platform sample_Decimal_round_trip
           tokyo_pool (py "prop-002") (py "tenant-a") 3 2024); try lia.
  - repeat split; reflexivity.
  - reflexivity.
  - intros r Hr _. simpl in Hr.
    destruct Hr as [<- | [<- | [<- | [<- | [<- | []]]]]];
      unfold datetime_wf; vm_compute; repeat split; discriminate.
Defined.

(** X15. A row that the statement selects for one month is not selected for
    any other month: summing months never counts a reservation twice. *)
Theorem months_do_not_overlap (pf : Platform) (property_id tenant_id : pystr)
    (m1 y1 m2 y2 : Z) (start1 end1 start2 end2 : datetime) (rp : Reservation * Property) :
  month_bounds m1 y1 = Ok (start1, end1) ->
  month_bounds m2 y2 = Ok (start2, end2) ->
  datetime_wf (local_check_in pf rp) ->
  (m1, y1) <> (m2, y2) ->
  monthly_where pf property_id tenant_id start1 end1 rp = true ->
  monthly_where pf property_id tenant_id start2 end2 rp = false.
Proof.
  intros Hb1 Hb2 Hwf Hne H1. unfold monthly_where in *.
  rewrite <- andb_assoc in H1. rewrite <- andb_assoc.
  rewrite (window_is_monthb m1 y1 _ _ _ Hb1 Hwf) in H1.
  rewrite (window_is_monthb m2 y2 _ _ _ Hb2 Hwf).
  apply andb_true_iff in H1 as [_ H1]. apply andb_true_iff in H1 as [Hy1 Hm1].
  apply Z.eqb_eq in Hm1, Hy1.
  destruct (Z.eqb_spec (year (local_check_in pf rp)) y2) as [Hy2|Hy2];
    [|now rewrite andb_false_r].
  destruct (Z.eqb_spec (month (local_check_in pf rp)) m2) as [Hm2|Hm2];
    [|now rewrite !andb_false_r].
  exfalso. apply Hne. congruence.
Qed.

Lemma months_do_not_overlap_witness :
  monthly_where sample_platform (py "prop-002") (py "tenant-a")
    (mk_datetime 2024 2 1 0 0 0 0) (mk_datetime 2024 3 1 0 0 0 0)
    (mk_Reservation (py "prop-002") (py "tenant-a") (mk_datetime 2024 2 29 15 0 0 0)
       (mk_Decimal 25000 (-2)),
     mk_Property (py "prop-002") (py "tenant-a") (py "Asia/Tokyo")) = false.
Proof.
  apply (months_do_not_overlap sample_platform (py "prop-002") (py "tenant-a") 3 2024 2 2024
           (mk_datetime 2024 3 1 0 0 0 0) (mk_datetime 2024 4 1 0 0 0 0)
           (mk_datetime 2024 2 1 0 0 0 0) (mk_datetime 2024 3 1 0 0 0 0));
    try reflexivity.
  - unfold datetime_wf. vm_compute. repeat split; discriminate.
  - discriminate.
Defined.

